(** * whisper_checker: funcs/subfuncs/find_and_split.py

    A shallow embedding of the silence-aware audio splitter: the duration
    probe, the silence detector, the split-point planning loop with clip
    extraction, and the manifest writer.

    Modelling conventions.
    - In the pipeline, Python floats (seconds) are exact rationals [Q], and
      [float('inf')] is a separate constructor: what is proved there is
      the structure of a run (which clips, in which order, which processes,
      which files).  Decimal rounding by [round(x, 4)] is modelled exactly.
    - The choice of the split point, where the outcome depends on how
      [+], [-] and [/] round, is also embedded on binary64 floats, in the
      module [Binary64], with the kernel's primitive floats.
    - Text is [string] over ASCII characters.
    - External processes ([subprocess.run]) are an oracle from the argument
      vector to a completed process; the built-in [float] on text is a
      parameter.
    - Effects are a trace of events (messages printed, processes run, the
      manifest dumped) together with the way the call ended: a returned
      value, [sys.exit(code)] or an uncaught exception. *)

From Stdlib Require Import QArith Qabs Qround ZArith List String Ascii Bool.
From Stdlib Require Import Lia Lqa DecimalString DecimalNat.
From Stdlib Require Floats.
Import ListNotations.

Local Open Scope Q_scope.

(** ** Python numbers *)

Module Py.

(** Comparisons of floats, as booleans. *)
Definition ltb (x y : Q) : bool := negb (Qle_bool y x).
Definition gtb (x y : Q) : bool := ltb y x.
Definition geb (x y : Q) : bool := Qle_bool y x.

(** A float that may be [float('inf')]. *)
Inductive ext : Type :=
| Fin (q : Q)
| Inf.

(** [x < m] for a finite [x]. *)
Definition lt_ext (x : Q) (m : ext) : bool :=
  match m with
  | Inf => true
  | Fin d => ltb x d
  end.

(** Rounding to the nearest integer, ties to the even one. *)
Definition round_half_even (x : Q) : Z :=
  let f := Qfloor x in
  match Qcompare (x - inject_Z f) (1 # 2) with
  | Lt => f
  | Gt => (f + 1)%Z
  | Eq => if Z.even f then f else (f + 1)%Z
  end.

(** [round(x, ndigits)] for a float [x] and [ndigits >= 0]. *)
Definition round (x : Q) (ndigits : nat) : Q :=
  let scale := inject_Z (10 ^ Z.of_nat ndigits) in
  inject_Z (round_half_even (x * scale)) / scale.

End Py.

(** ** Python strings and paths *)

Module Str.

Local Open Scope string_scope.

Definition is_digit (c : ascii) : bool :=
  let n := nat_of_ascii c in (48 <=? n)%nat && (n <=? 57)%nat.

(** [str.isspace] on ASCII characters. *)
Definition is_space (c : ascii) : bool :=
  let n := nat_of_ascii c in
  ((9 <=? n)%nat && (n <=? 13)%nat) || ((28 <=? n)%nat && (n <=? 32)%nat).

(** [needle in s] *)
Fixpoint contains (needle s : string) : bool :=
  match s with
  | EmptyString => prefix needle EmptyString
  | String _ s' => prefix needle s || contains needle s'
  end.

Fixpoint lstrip (s : string) : string :=
  match s with
  | EmptyString => EmptyString
  | String c s' => if is_space c then lstrip s' else s
  end.

Fixpoint rstrip (s : string) : string :=
  match s with
  | EmptyString => EmptyString
  | String c s' =>
      match rstrip s' with
      | EmptyString => if is_space c then EmptyString else String c EmptyString
      | r => String c r
      end
  end.

(** [s.strip()] *)
Definition strip (s : string) : string := rstrip (lstrip s).

(** The longest prefix of digits, and what follows it. *)
Fixpoint span_digits (s : string) : string * string :=
  match s with
  | EmptyString => (EmptyString, EmptyString)
  | String c s' =>
      if is_digit c
      then let (d, r) := span_digits s' in (String c d, r)
      else (EmptyString, s)
  end.

(** [s] without the prefix [p], when it has it. *)
Fixpoint drop_prefix (p s : string) : option string :=
  match p, s with
  | EmptyString, _ => Some s
  | String a p', String b s' => if Ascii.eqb a b then drop_prefix p' s' else None
  | String _ _, EmptyString => None
  end.

(** A match at the start of [s] of the pattern made of the literal
    [lit] and a group of one or more digits, an optional dot and any
    number of digits: the captured group and the length of the whole
    match.  Every quantifier is greedy and everything after the first
    digits is optional, so the first attempt of the matcher is the
    match. *)
Definition match_at (lit s : string) : option (string * nat) :=
  match drop_prefix lit s with
  | None => None
  | Some r =>
      let (d1, r1) := span_digits r in
      match d1 with
      | EmptyString => None
      | _ =>
          let group :=
            match r1 with
            | String c r2 =>
                if Ascii.eqb c "." then d1 ++ "." ++ fst (span_digits r2) else d1
            | EmptyString => d1
            end in
          Some (group, (length lit + length group)%nat)
      end
  end.

(** Scanning left to right; [skip] characters belong to the previous
    match and start no new one. *)
Fixpoint findall_from (lit s : string) (skip : nat) : list string :=
  match s with
  | EmptyString => []
  | String _ s' =>
      match skip with
      | S k => findall_from lit s' k
      | O =>
          match match_at lit s with
          | Some (group, len) => group :: findall_from lit s' (len - 1)
          | None => findall_from lit s' 0
          end
      end
  end.

(** [re.findall] of that pattern in [s], for a literal [lit] that is
    not empty. *)
Definition findall (lit s : string) : list string := findall_from lit s 0.

(** [f"{n:03d}"] *)
Definition format_03d (n : nat) : string :=
  let s := NilZero.string_of_uint (Nat.to_uint n) in
  match length s with
  | 1%nat => "00" ++ s
  | 2%nat => "0" ++ s
  | _ => s
  end.

End Str.

(** [os.path] on POSIX. *)
Module OsPath.

Local Open Scope string_scope.

Fixpoint rfind_from (c : ascii) (s : string) (i : nat) : option nat :=
  match s with
  | EmptyString => None
  | String a r =>
      match rfind_from c r (S i) with
      | Some j => Some j
      | None => if Ascii.eqb a c then Some i else None
      end
  end.

(** [s.rfind(c)], [-1] when [c] does not occur. *)
Definition rfind (c : ascii) (s : string) : Z :=
  match rfind_from c s 0 with
  | Some j => Z.of_nat j
  | None => (-1)%Z
  end.

(** [p[i:]] for [0 <= i]. *)
Definition from (i : Z) (p : string) : string :=
  substring (Z.to_nat i) (length p - Z.to_nat i) p.

(** [p[:i]] for [0 <= i]. *)
Definition upto (i : Z) (p : string) : string := substring 0 (Z.to_nat i) p.

Definition basename (p : string) : string := from (rfind "/" p + 1) p.

Definition is_dot_at (p : string) (k : nat) : bool :=
  match get k p with
  | Some c => Ascii.eqb c "."
  | None => false
  end.

(** [os.path.splitext]: the extension starts at the last dot of the last
    component, unless only dots precede it there. *)
Definition splitext (p : string) : string * string :=
  let sepIndex := rfind "/" p in
  let dotIndex := rfind "." p in
  if (sepIndex <? dotIndex)%Z then
    let filenameIndex := Z.to_nat (sepIndex + 1) in
    if existsb (fun k => negb (is_dot_at p k))
               (seq filenameIndex (Z.to_nat dotIndex - filenameIndex))
    then (upto dotIndex p, from dotIndex p)
    else (p, EmptyString)
  else (p, EmptyString).

(** [os.path.join(a, b)] *)
Definition join (a b : string) : string :=
  if prefix "/" b then b
  else if (a =? EmptyString) || (from (Z.of_nat (length a) - 1) a =? "/") then a ++ b
  else a ++ "/" ++ b.

End OsPath.

(** ** Processes, events and the way a call ends *)

(** An element of an argument vector: a string, or [str(x)] of a float,
    kept as the float it prints. *)
Inductive arg : Type :=
| Lit (s : string)
| Num (x : Q).

Definition command : Type := list arg.

(** What [subprocess.run] hands back. *)
Record CompletedProcess : Type := mkCompleted {
  returncode : Z;
  stdout : string;
  stderr : string
}.

(** JSON values, as [json.dump] receives them. *)
#[local] Unset Elimination Schemes.
Inductive json : Type :=
| JNumber (x : Q)
| JString (s : string)
| JArray (items : list json)
| JObject (members : list (string * json)).
#[local] Set Elimination Schemes.

(** The lines the script prints, one constructor per [print]. *)
Inductive message : Type :=
| ErrorExecutingCommand (c : command)
| StderrWas (s : string)
| GettingDuration
| CouldNotDetermineDuration
| DetectingSilences
| NoSilencesDetected
| FoundSplitPoints (n : nat)
| CreatingClip (clip_num : nat) (current_pos split_point : Q)
| WritingManifest (path : string)
| Usage.

Inductive event : Type :=
| Print (m : message)
| Run (c : command)
| Dump (path : string) (content : json).

Inductive exn : Type :=
| CalledProcessError
| ValueError.

Inductive outcome (A : Type) : Type :=
| Return (a : A)
| SysExit (code : Z)
| Raise (e : exn).

Arguments Return {A} a.
Arguments SysExit {A} code.
Arguments Raise {A} e.

(** A computation: [None] when the fuel of a loop ran out, otherwise the
    events so far and how the call ended. *)
Definition M (A : Type) : Type := option (list event * outcome A).

Definition ret {A : Type} (a : A) : M A := Some ([], Return a).

Definition bind {A B : Type} (m : M A) (k : A -> M B) : M B :=
  match m with
  | None => None
  | Some (t, Return a) =>
      match k a with
      | None => None
      | Some (t', o) => Some (t ++ t', o)
      end
  | Some (t, SysExit c) => Some (t, SysExit c)
  | Some (t, Raise e) => Some (t, Raise e)
  end.

Definition emit (e : event) : M unit := Some ([e], Return tt).
Definition print (m : message) : M unit := emit (Print m).
Definition sys_exit {A : Type} (code : Z) : M A := Some ([], SysExit code).
Definition raise {A : Type} (e : exn) : M A := Some ([], Raise e).

Notation "x <- m ;; k" := (bind m (fun x => k))
  (at level 61, m at next level, right associativity).
Notation "m ;; k" := (bind m (fun _ => k))
  (at level 61, right associativity).

(** The status the interpreter exits with. *)
Definition exit_status {A : Type} (o : outcome A) : Z :=
  match o with
  | Return _ => 0%Z
  | SysExit code => code
  | Raise _ => 1%Z
  end.

(** ** The script *)

Definition SILENCE_DB : string := "-30dB".
Definition SILENCE_DURATION : string := "0.25".

(** A planned clip: the loop variables [clip_num], [current_pos] and
    [split_point] of an iteration that passed the minimum-length test. *)
Record ClipPlan : Type := mkClip {
  sequence_number : nat;
  source_start : Q;
  source_end : Q
}.

(** An entry of [clip_manifest]. *)
Record clip_info : Type := mkInfo {
  filename : string;
  source_start_time : Q
}.

Definition clip_info_json (c : clip_info) : json :=
  JObject [("filename"%string, JString (filename c));
           ("source_start_time"%string, JNumber (source_start_time c))].

Section Script.

(** The built-in [float] on text: [None] is [ValueError]. *)
Variable float : string -> option Q.

(** The external processes. *)
Variable subprocess_run : command -> CompletedProcess.

Definition run (c : command) : M CompletedProcess :=
  emit (Run c) ;; ret (subprocess_run c).

Definition run_command (c : command) : M string :=
  result <- run c ;;
  if negb (returncode result =? 0)%Z
     && (Str.contains "Error" (stderr result) || Str.contains "failed" (stderr result))
  then
    print (ErrorExecutingCommand c) ;;
    print (StderrWas (stderr result)) ;;
    sys_exit 1
  else ret (stderr result).

Definition ffprobe_command (input_file : string) : command :=
  [Lit "ffprobe"; Lit "-v"; Lit "error"; Lit "-show_entries"; Lit "format=duration";
   Lit "-of"; Lit "default=noprint_wrappers=1:nokey=1"; Lit input_file].

Definition get_total_duration (input_file : string) : M Q :=
  print GettingDuration ;;
  result <- run (ffprobe_command input_file) ;;
  if negb (returncode result =? 0)%Z then raise CalledProcessError
  else
    match float (Str.strip (stdout result)) with
    | Some x => ret x
    | None => print CouldNotDetermineDuration ;; sys_exit 1
    end.

Definition silencedetect_command (input_file : string) : command :=
  [Lit "ffmpeg"; Lit "-i"; Lit input_file; Lit "-af";
   Lit ("silencedetect=noise=" ++ SILENCE_DB ++ ":d=" ++ SILENCE_DURATION);
   Lit "-f"; Lit "null"; Lit "-"].

(** The loop over [zip(start_times, end_times)]. *)
Fixpoint to_silences (pairs : list (string * string)) : M (list (Q * Q)) :=
  match pairs with
  | [] => ret []
  | (start, end_) :: rest =>
      match float start, float end_ with
      | Some s, Some e =>
          silences <- to_silences rest ;;
          ret ((s, e) :: silences)
      | _, _ => raise ValueError
      end
  end.

Definition find_silences (input_file : string) : M (list (Q * Q)) :=
  print DetectingSilences ;;
  output <- run_command (silencedetect_command input_file) ;;
  let start_times := Str.findall "silence_start: " output in
  let end_times := Str.findall "silence_end: " output in
  match start_times, end_times with
  | [], _ | _, [] => print NoSilencesDetected ;; sys_exit 1
  | _, _ =>
      silences <- to_silences (combine start_times end_times) ;;
      print (FoundSplitPoints (List.length silences)) ;;
      ret silences
  end.

(** *** [split_audio] *)

Section SplitAudio.

Variable input_file : string.
Variable target_duration_sec : Q.
Variable output_dir : string.
Variable silences : list (Q * Q).
Variable total_duration : Q.

Definition file_basename : string := fst (OsPath.splitext (OsPath.basename input_file)).
Definition file_ext : string := snd (OsPath.splitext input_file).

(** The body of [for start, end in silences], on the pair
    [(best_silence, min_dist)], in exact arithmetic: the midpoint and the
    distance are the rationals, not their binary64 roundings.  Which
    silence wins where two distances differ by less than a rounding is
    settled on [Binary64.scan_step], the same body on binary64 floats. *)
Definition scan_step (current_pos target_split_time : Q)
    (acc : option (Q * Q) * Py.ext) (silence : Q * Q) : option (Q * Q) * Py.ext :=
  let (start, end_) := silence in
  if Py.gtb start current_pos then
    let silence_mid_point := start + (end_ - start) / 2 in
    let dist := Qabs (silence_mid_point - target_split_time) in
    if Py.lt_ext dist (snd acc) then (Some (start, end_), Py.Fin dist) else acc
  else acc.

Definition scan (current_pos target_split_time : Q) : option (Q * Q) * Py.ext :=
  fold_left (scan_step current_pos target_split_time) silences (None, Py.Inf).

(** The split point an iteration computes at [current_pos], in exact
    arithmetic ([Binary64.split_point_at] is the same on binary64
    floats). *)
Definition split_point_at (current_pos : Q) : Q :=
  let target_split_time := current_pos + target_duration_sec in
  if Py.geb target_split_time total_duration then total_duration
  else
    match fst (scan current_pos target_split_time) with
    | Some best_silence => fst best_silence + (snd best_silence - fst best_silence) / 2
    | None => total_duration
    end.

Definition output_filename_of (clip_num : nat) : string :=
  (file_basename ++ "_clip_" ++ Str.format_03d clip_num ++ file_ext)%string.

Definition copy_command (current_pos split_point : Q) (output_filepath : string) : command :=
  [Lit "ffmpeg"; Lit "-i"; Lit input_file; Lit "-ss"; Num current_pos;
   Lit "-to"; Num split_point; Lit "-c"; Lit "copy"; Lit "-y"; Lit output_filepath].

(** The [while] loop; each test of its condition takes one unit of
    fuel. *)
Fixpoint split_loop (fuel : nat) (current_pos : Q) (clip_num : nat)
    (clip_manifest : list clip_info) : M (list clip_info) :=
  match fuel with
  | O => None
  | S fuel' =>
      if Py.ltb current_pos total_duration then
        let split_point := split_point_at current_pos in
        if Py.ltb (split_point - current_pos) 1 then ret clip_manifest
        else
          let output_filename := output_filename_of clip_num in
          let output_filepath := OsPath.join output_dir output_filename in
          print (CreatingClip clip_num current_pos split_point) ;;
          result <- run (copy_command current_pos split_point output_filepath) ;;
          if negb (returncode result =? 0)%Z then raise CalledProcessError
          else
            let clip_info := mkInfo output_filename (Py.round current_pos 4) in
            split_loop fuel' split_point (S clip_num) (clip_manifest ++ [clip_info])
      else ret clip_manifest
  end.

Definition manifest_filepath : string :=
  OsPath.join output_dir (file_basename ++ "_manifest.json")%string.

Definition split_audio_fuel (fuel : nat) : M unit :=
  clip_manifest <- split_loop fuel 0 1 [] ;;
  print (WritingManifest manifest_filepath) ;;
  emit (Dump manifest_filepath (JArray (map clip_info_json clip_manifest))).

(** The loop tests its condition at most [len(silences) + 2] times
    (see [split_loop_total]). *)
Definition split_audio : M unit := split_audio_fuel (List.length silences + 2).

End SplitAudio.

(** *** [__main__] *)

Definition main (argv : list string) : M unit :=
  if negb (List.length argv =? 4)%nat then print Usage ;; sys_exit 1
  else
    let input_file_path := nth 1 argv EmptyString in
    match float (nth 2 argv EmptyString) with
    | None => raise ValueError
    | Some target_minutes =>
        let output_directory := nth 3 argv EmptyString in
        let target_seconds := target_minutes * 60 in
        total_duration_secs <- get_total_duration input_file_path ;;
        detected_silences <- find_silences input_file_path ;;
        split_audio input_file_path target_seconds output_directory
                    detected_silences total_duration_secs
    end.

End Script.

(** ** An instance of the parameters, for running the model

    [Decimal.float] reads text the way the built-in [float] does and gives
    the rational the numeral denotes, before rounding to binary64:
    surrounding whitespace, a sign, digits with single underscores between
    them, a fraction (also without integer digits), an exponent.  [None]
    is [ValueError].  The words [inf], [infinity] and [nan], which denote
    no rational, are not read. *)
Module Decimal.

Definition digit_value (c : ascii) : Z := Z.of_nat (nat_of_ascii c - 48).

Fixpoint digits_value (s : string) (acc : Z) : Z :=
  match s with
  | EmptyString => acc
  | String c s' => digits_value s' (10 * acc + digit_value c)
  end.

(** After a digit: the digits that follow, each after at most one
    underscore, and the rest of the text. *)
Fixpoint digitpart_tail (s : string) : string * string :=
  match s with
  | EmptyString => (EmptyString, EmptyString)
  | String c s' =>
      if Str.is_digit c then
        let (d, r) := digitpart_tail s' in (String c d, r)
      else if Ascii.eqb c "_" then
        match s' with
        | String c' s'' =>
            if Str.is_digit c' then
              let (d, r) := digitpart_tail s'' in (String c' d, r)
            else (EmptyString, s)
        | EmptyString => (EmptyString, s)
        end
      else (EmptyString, s)
  end.

(** A digit part at the start of [s]: its digits and the rest. *)
Definition digitpart (s : string) : option (string * string) :=
  match s with
  | String c s' =>
      if Str.is_digit c then
        let (d, r) := digitpart_tail s' in Some (String c d, r)
      else None
  | EmptyString => None
  end.

(** An optional sign: whether it is a minus, and the rest. *)
Definition sign (s : string) : bool * string :=
  match s with
  | String c s' =>
      if Ascii.eqb c "-" then (true, s')
      else if Ascii.eqb c "+" then (false, s')
      else (false, s)
  | EmptyString => (false, s)
  end.

(** Integer digits, fraction digits and the rest: digits with an
    optional dot and fraction, or a dot and a fraction. *)
Definition number (s : string) : option (string * string * string) :=
  match digitpart s with
  | Some (int_part, EmptyString) => Some (int_part, EmptyString, EmptyString)
  | Some (int_part, String c r) =>
      if Ascii.eqb c "." then
        match digitpart r with
        | Some (frac, r') => Some (int_part, frac, r')
        | None => Some (int_part, EmptyString, r)
        end
      else Some (int_part, EmptyString, String c r)
  | None =>
      match s with
      | String c r =>
          if Ascii.eqb c "." then
            match digitpart r with
            | Some (frac, r') => Some (EmptyString, frac, r')
            | None => None
            end
          else None
      | EmptyString => None
      end
  end.

(** What follows the number: nothing, or an exponent and nothing more. *)
Definition exponent (s : string) : option Z :=
  match s with
  | EmptyString => Some 0%Z
  | String c r =>
      if Ascii.eqb c "e" || Ascii.eqb c "E" then
        let (negative, r') := sign r in
        match digitpart r' with
        | Some (d, EmptyString) =>
            Some (if negative then (- digits_value d 0)%Z else digits_value d 0)
        | _ => None
        end
      else None
  end.

Definition float (s : string) : option Q :=
  let (negative, body) := sign (Str.strip s) in
  match number body with
  | Some (int_part, frac, rest) =>
      match exponent rest with
      | Some e =>
          let mantissa :=
            inject_Z (digits_value int_part 0)
            + inject_Z (digits_value frac 0) / inject_Z (10 ^ Z.of_nat (String.length frac)) in
          let value := mantissa * Qpower 10 e in
          Some (if negative then - value else value)
      | None => None
      end
  | None => None
  end.

End Decimal.

(** A machine on which [ffprobe] exits with [probe_code] after printing
    [probe_stdout], the silence detector exits with [detect_code] after
    writing [detect_stderr], and every stream copy exits with [copy_code],
    all without further output. *)
Module Machine.

Definition is_probe (c : command) : bool :=
  match c with
  | Lit s :: _ => String.eqb s "ffprobe"
  | _ => false
  end.

Definition is_detect (c : command) : bool :=
  match nth_error c 3 with
  | Some (Lit s) => String.eqb s "-af"
  | _ => false
  end.

Definition subprocess_run (probe_code : Z) (probe_stdout : string)
    (detect_code : Z) (detect_stderr : string) (copy_code : Z)
    (c : command) : CompletedProcess :=
  if is_probe c then mkCompleted probe_code probe_stdout EmptyString
  else if is_detect c then mkCompleted detect_code EmptyString detect_stderr
  else mkCompleted copy_code EmptyString EmptyString.

(** Every process succeeds and prints nothing. *)
Definition quiet : command -> CompletedProcess :=
  subprocess_run 0 EmptyString 0 EmptyString 0.

(** A detector report with three starts and two ends: the file ends in
    silence. *)
Definition three_starts_two_ends : string :=
  "[silencedetect @ 0x1] silence_start: 1.5
[silencedetect @ 0x1] silence_end: 2.25 | silence_duration: 0.75
[silencedetect @ 0x1] silence_start: 7
[silencedetect @ 0x1] silence_end: 8.5 | silence_duration: 1.5
[silencedetect @ 0x1] silence_start: 12.25
".

(** A detector report with one silence, from 4 to 6. *)
Definition one_silence : string :=
  "[silencedetect @ 0x1] silence_start: 4
[silencedetect @ 0x1] silence_end: 6 | silence_duration: 2
".

(** A detector report of a file that starts in silence: the first start
    is negative. *)
Definition negative_first_start : string :=
  "[silencedetect @ 0x1] silence_start: -0.00133333
[silencedetect @ 0x1] silence_end: 2.5 | silence_duration: 2.50133
[silencedetect @ 0x1] silence_start: 7
[silencedetect @ 0x1] silence_end: 9 | silence_duration: 2
".

Definition argv (input_file duration_minutes output_dir : string) : list string :=
  ["find_and_split.py"%string; input_file; duration_minutes; output_dir].

End Machine.

(** ** Reading a trace *)

(** The clips a trace shows being created. *)
Definition plan_of_event (e : event) : list ClipPlan :=
  match e with
  | Print (CreatingClip n a b) => [mkClip n a b]
  | _ => []
  end.

Definition plans_of (t : list event) : list ClipPlan := flat_map plan_of_event t.

(** The processes a trace shows being run. *)
Definition runs_of (t : list event) : list command :=
  flat_map (fun e => match e with Run c => [c] | _ => [] end) t.

(** The files a trace shows being dumped. *)
Definition dumps_of (t : list event) : list (string * json) :=
  flat_map (fun e => match e with Dump p j => [(p, j)] | _ => [] end) t.

(** The floats that follow [-ss] in a command. *)
Fixpoint ss_of_command (c : command) : list Q :=
  match c with
  | Lit s :: rest =>
      match rest with
      | Num x :: _ => if String.eqb s "-ss" then [x] else ss_of_command rest
      | _ => ss_of_command rest
      end
  | _ :: rest => ss_of_command rest
  | [] => []
  end.

(** The cut points handed to the extractions of a trace, in order. *)
Definition cut_points (t : list event) : list Q := flat_map ss_of_command (runs_of t).

Definition member_times (m : string * json) : list Q :=
  match m with
  | (key, JNumber x) => if String.eqb key "source_start_time" then [x] else []
  | _ => []
  end.

Definition entry_times (j : json) : list Q :=
  match j with
  | JObject members => flat_map member_times members
  | _ => []
  end.

Definition document_times (d : string * json) : list Q :=
  match snd d with
  | JArray items => flat_map entry_times items
  | _ => []
  end.

(** The [source_start_time] values of the manifests a trace dumps. *)
Definition manifest_times (t : list event) : list Q := flat_map document_times (dumps_of t).

(** ** The vocabulary of the specification *)

(** When [run_command] gives up. *)
Definition reports_error (result : CompletedProcess) : bool :=
  negb (returncode result =? 0)%Z
  && (Str.contains "Error" (stderr result) || Str.contains "failed" (stderr result)).

(** The conversions of the loop over the pairs, without the monad. *)
Fixpoint floats_of (float : string -> option Q) (pairs : list (string * string)) : option (list (Q * Q)) :=
  match pairs with
  | [] => Some []
  | (start, end_) :: rest =>
      match float start, float end_, floats_of float rest with
      | Some s, Some e, Some silences => Some ((s, e) :: silences)
      | _, _, _ => None
      end
  end.

Definition midpoint (silence : Q * Q) : Q :=
  fst silence + (snd silence - fst silence) / 2.

Definition distance (target_split_time : Q) (silence : Q * Q) : Q :=
  Qabs (midpoint silence - target_split_time).

(** What the pair [(best_silence, min_dist)] records of the silences
    scanned so far: nothing eligible yet, or the first of the eligible
    silences at the least distance. *)
Definition scanned (current_pos target_split_time : Q) (seen : list (Q * Q))
    (acc : option (Q * Q) * Py.ext) : Prop :=
  match fst acc with
  | None =>
      snd acc = Py.Inf /\ forall s, In s seen -> ~ current_pos < fst s
  | Some best =>
      snd acc = Py.Fin (distance target_split_time best) /\
      exists i,
        nth_error seen i = Some best /\
        current_pos < fst best /\
        (forall s, In s seen -> current_pos < fst s ->
           distance target_split_time best <= distance target_split_time s) /\
        (forall j s, (j < i)%nat -> nth_error seen j = Some s -> current_pos < fst s ->
           distance target_split_time best < distance target_split_time s)
  end.

(** The silences whose midpoint lies after [current_pos]: an upper bound
    on the splits still to come. *)
Definition remaining (silences : list (Q * Q)) (current_pos : Q) : nat :=
  List.length (filter (fun s => Py.ltb current_pos (midpoint s)) silences).

Section Vocabulary.

Variable subprocess_run : command -> CompletedProcess.
Variable input_file : string.
Variable target_duration_sec : Q.
Variable output_dir : string.
Variable silences : list (Q * Q).
Variable total_duration : Q.

Local Abbreviation split_point :=
  (split_point_at target_duration_sec silences total_duration).

(** [plans] are the clips of consecutive iterations of the loop, the
    first one entered at [current_pos] with [clip_num]. *)
Fixpoint planned_from (current_pos : Q) (clip_num : nat) (plans : list ClipPlan) : Prop :=
  match plans with
  | [] => True
  | c :: rest =>
      sequence_number c = clip_num /\
      source_start c = current_pos /\
      source_end c = split_point current_pos /\
      current_pos < total_duration /\
      1 <= source_end c - source_start c /\
      planned_from (source_end c) (S clip_num) rest
  end.

(** Where the cursor stands after [plans]. *)
Definition final_pos (current_pos : Q) (plans : list ClipPlan) : Q :=
  last (map source_end plans) current_pos.

(** The loop leaves at [current_pos]: its condition fails, or the
    segment computed there is shorter than the minimum. *)
Definition exhausted (current_pos : Q) : Prop := ~ current_pos < total_duration.

Definition short_tail (current_pos : Q) : Prop :=
  current_pos < total_duration /\ split_point current_pos - current_pos < 1.

Definition output_filepath_of (c : ClipPlan) : string :=
  OsPath.join output_dir (output_filename_of input_file (sequence_number c)).

(** What one iteration leaves in the trace. *)
Definition clip_events (c : ClipPlan) : list event :=
  [Print (CreatingClip (sequence_number c) (source_start c) (source_end c));
   Run (copy_command input_file (source_start c) (source_end c) (output_filepath_of c))].

(** What one iteration appends to [clip_manifest]. *)
Definition info_of (c : ClipPlan) : clip_info :=
  mkInfo (output_filename_of input_file (sequence_number c)) (Py.round (source_start c) 4).

Definition extracted (c : ClipPlan) : Prop :=
  returncode (subprocess_run
    (copy_command input_file (source_start c) (source_end c) (output_filepath_of c))) = 0%Z.

End Vocabulary.





(** ** The choice of the split point, on binary64 floats

    Lines 88 to 107 of the script with the arithmetic and the comparisons
    of binary64: [float('inf')] is [infinity], a comparison with NaN is
    false. *)
Module Binary64.
Import SpecFloat.

(** A float that is not NaN, as a triple whose lexicographic order is the
    order of the floats. *)
Definition rank (f : spec_float) : option (Z * Z * Z) :=
  match f with
  | S754_nan => None
  | S754_infinity true => Some (0, 0, 0)%Z
  | S754_finite true m e => Some (1, - e, Z.neg m)%Z
  | S754_zero _ => Some (2, 0, 0)%Z
  | S754_finite false m e => Some (3, e, Z.pos m)%Z
  | S754_infinity false => Some (4, 0, 0)%Z
  end.

Definition lex (x y : Z * Z * Z) : comparison :=
  let '(a, b, c) := x in
  let '(a', b', c') := y in
  match (a ?= a')%Z with
  | Eq => match (b ?= b')%Z with
          | Eq => (c ?= c')%Z
          | r => r
          end
  | r => r
  end.


Import PrimFloat.
Local Open Scope float_scope.

(** The body of [for start, end in silences], on the pair
    [(best_silence, min_dist)]. *)
Definition scan_step (current_pos target_split_time : float)
    (acc : option (float * float) * float) (silence : float * float)
    : option (float * float) * float :=
  let (start, end_) := silence in
  if current_pos <? start then
    let silence_mid_point := start + (end_ - start) / 2 in
    let dist := abs (silence_mid_point - target_split_time) in
    if dist <? snd acc then (Some (start, end_), dist) else acc
  else acc.

Definition scan (silences : list (float * float)) (current_pos target_split_time : float)
    : option (float * float) * float :=
  fold_left (scan_step current_pos target_split_time) silences (None, infinity).

(** The split point an iteration computes at [current_pos]; the test
    [target_split_time >= total_duration] is [total_duration <=?
    target_split_time], and [start > current_pos] in [scan_step] is
    [current_pos <? start]. *)
Definition split_point_at (target_duration_sec : float) (silences : list (float * float))
    (total_duration current_pos : float) : float :=
  let target_split_time := current_pos + target_duration_sec in
  if total_duration <=? target_split_time then total_duration
  else
    match fst (scan silences current_pos target_split_time) with
    | Some best_silence => fst best_silence + (snd best_silence - fst best_silence) / 2
    | None => total_duration
    end.

(** The midpoint of a silence and its distance to the target, as the
    loop computes them. *)
Definition midpoint (silence : float * float) : float :=
  fst silence + (snd silence - fst silence) / 2.

Definition distance (target_split_time : float) (silence : float * float) : float :=
  abs (midpoint silence - target_split_time).

(** [best] is the silence at index [i]; it starts after [current_pos]; no
    silence that starts after [current_pos] has a computed distance less
    than its own; and none before it in the list has one less than or
    equal to its own. *)
Definition nearest_eligible (current_pos target_split_time : float)
    (silences : list (float * float)) (i : nat) (best : float * float) : Prop :=
  nth_error silences i = Some best /\
  (current_pos <? fst best) = true /\
  (forall s, In s silences -> (current_pos <? fst s) = true ->
     (distance target_split_time s <? distance target_split_time best) = false) /\
  (forall j s, (j < i)%nat -> nth_error silences j = Some s -> (current_pos <? fst s) = true ->
     (distance target_split_time s <=? distance target_split_time best) = false).

(** What the pair [(best_silence, min_dist)] records of the silences
    scanned so far. *)
Definition scanned (current_pos target_split_time : float) (seen : list (float * float))
    (acc : option (float * float) * float) : Prop :=
  (forall s, In s seen -> (current_pos <? fst s) = true ->
     (distance target_split_time s <? snd acc) = false) /\
  match fst acc with
  | None => snd acc = infinity
  | Some best =>
      snd acc = distance target_split_time best /\
      (snd acc <? infinity) = true /\
      exists i, nearest_eligible current_pos target_split_time seen i best
  end.

End Binary64.

(** ** More readings of a trace *)

Definition member_filenames (m : string * json) : list string :=
  match m with
  | (key, JString x) => if String.eqb key "filename" then [x] else []
  | _ => []
  end.

Definition entry_filenames (j : json) : list string :=
  match j with
  | JObject members => flat_map member_filenames members
  | _ => []
  end.

Definition document_filenames (d : string * json) : list string :=
  match snd d with
  | JArray items => flat_map entry_filenames items
  | _ => []
  end.

(** The [filename] values of the manifests a trace dumps. *)
Definition manifest_filenames (t : list event) : list string :=
  flat_map document_filenames (dumps_of t).

(** The file a stream copy writes: the last of its eleven arguments. *)
Definition written_by (c : command) : list string :=
  match nth_error c 10 with
  | Some (Lit output_filepath) => [output_filepath]
  | _ => []
  end.

(** The files the processes of a trace write, in order. *)
Definition written_files (t : list event) : list string := flat_map written_by (runs_of t).

(** The number a decimal numeral denotes, leading zeros allowed. *)
Definition clip_number_of (s : string) : option nat :=
  option_map Nat.of_uint (NilZero.uint_of_string s).

(** * Running the model *)

Example round_example : Qeq_bool (Py.round (20001220703125 # 10000000000000) 4) (20001 # 10000) = true.
Proof. reflexivity. Qed.
Example round_tie : Qeq_bool (Py.round (25 # 100000) 4) (2 # 10000) = true.
Proof. reflexivity. Qed.
Example splitext_example : OsPath.splitext "/a.b/talk.final.mp3"%string = ("/a.b/talk.final", ".mp3")%string.
Proof. reflexivity. Qed.
Example splitext_hidden : OsPath.splitext "/a.b/.bashrc"%string = ("/a.b/.bashrc"%string, EmptyString).
Proof. reflexivity. Qed.
Example basename_example : OsPath.basename "/a.b/talk.final.mp3"%string = "talk.final.mp3"%string.
Proof. reflexivity. Qed.
Example join_example : OsPath.join "out"%string "x.mp3"%string = "out/x.mp3"%string.
Proof. reflexivity. Qed.
Example findall_example :
  Str.findall "silence_start: "
    "[s @ 0x1] silence_start: 1.5
[s @ 0x1] silence_end: 2.25 | silence_duration: 0.75
[s @ 0x1] silence_start: 7
silence_start: -0.1 silence_start: 12."%string
  = ["1.5"; "7"; "12."]%string.
Proof. reflexivity. Qed.
Example format_example : (Str.format_03d 7, Str.format_03d 42, Str.format_03d 1234) = ("007", "042", "1234")%string.
Proof. reflexivity. Qed.
Example decimal_float_examples :
  map (fun s => option_map Qred (Decimal.float s))
      ["12.5"; "-0.00133333"; " 1.5e2 "; ".5"; "12."; "1_000"; "+3E-2";
       "1__0"; "1e"; "."; "N/A"; "- 1"]%string
  = [Some (25 # 2); Some (-133333 # 100000000); Some 150; Some (1 # 2); Some 12;
     Some 1000; Some (3 # 100); None; None; None; None; None].
Proof. reflexivity. Qed.
Example strip_example : Str.strip "  12.5
"%string = "12.5"%string.
Proof. reflexivity. Qed.

(** * Properties *)

(** ** Comparisons *)

Lemma ltb_lt (x y : Q) : Py.ltb x y = true <-> x < y.
Proof.
  unfold Py.ltb. rewrite negb_true_iff.
  split; intro H.
  - apply Qnot_le_lt. intro Hle. apply Qle_bool_iff in Hle. congruence.
  - destruct (Qle_bool y x) eqn:E; [|reflexivity].
    apply Qle_bool_iff in E. exfalso. apply (Qlt_not_le _ _ H E).
Qed.

Lemma ltb_ge (x y : Q) : Py.ltb x y = false <-> y <= x.
Proof.
  unfold Py.ltb. rewrite negb_false_iff. apply Qle_bool_iff.
Qed.

Lemma geb_ge (x y : Q) : Py.geb x y = true <-> y <= x.
Proof. apply Qle_bool_iff. Qed.

Lemma geb_lt (x y : Q) : Py.geb x y = false <-> x < y.
Proof.
  unfold Py.geb. split; intro H.
  - apply ltb_lt. unfold Py.ltb. now rewrite H.
  - apply ltb_lt in H. unfold Py.ltb in H. now apply negb_true_iff in H.
Qed.

(** ** The scan for the nearest silence *)

Section Scan.

Variable current_pos target_split_time : Q.

Local Abbreviation scanned' := (scanned current_pos target_split_time).

Lemma scanned_step (seen : list (Q * Q)) (acc : option (Q * Q) * Py.ext) (s : Q * Q) :
  scanned' seen acc ->
  scanned' (seen ++ [s]) (scan_step current_pos target_split_time acc s).
Proof.
  unfold scanned, scan_step. destruct s as [start end_], acc as [best md]. simpl.
  intros Hacc.
  destruct (Py.gtb start current_pos) eqn:Hel.
  - apply ltb_lt in Hel.
    change (Qabs (start + (end_ - start) / 2 - target_split_time))
      with (distance target_split_time (start, end_)).
    destruct best as [best|].
    + destruct Hacc as [-> (i & Hi & Hb & Hmin & Hfirst)]. simpl.
      destruct (Py.ltb _ _) eqn:Hlt; simpl.
      * apply ltb_lt in Hlt. split; [reflexivity|].
        exists (List.length seen). repeat split.
        -- rewrite nth_error_app2 by lia. now rewrite Nat.sub_diag.
        -- exact Hel.
        -- intros s Hs Hes. apply in_app_or in Hs. destruct Hs as [Hs|[<-|[]]].
           ++ apply Qle_trans with (distance target_split_time best);
                [now apply Qlt_le_weak | now apply Hmin].
           ++ apply Qle_refl.
        -- intros j s Hj Hs Hes. rewrite nth_error_app1 in Hs by exact Hj.
           apply Qlt_le_trans with (distance target_split_time best); [exact Hlt|].
           apply Hmin; [eapply nth_error_In; eauto | exact Hes].
      * apply ltb_ge in Hlt. split; [reflexivity|].
        exists i. repeat split.
        -- rewrite nth_error_app1; [exact Hi|]. apply nth_error_Some. congruence.
        -- exact Hb.
        -- intros s Hs Hes. apply in_app_or in Hs. destruct Hs as [Hs|[<-|[]]].
           ++ now apply Hmin.
           ++ exact Hlt.
        -- intros j s Hj Hs Hes. apply (Hfirst j s Hj); [|exact Hes].
           rewrite nth_error_app1 in Hs; [exact Hs|].
           assert (i < List.length seen)%nat by (apply nth_error_Some; congruence). lia.
    + destruct Hacc as [-> Hnone]. simpl. split; [reflexivity|].
      exists (List.length seen). repeat split.
      * rewrite nth_error_app2 by lia. now rewrite Nat.sub_diag.
      * exact Hel.
      * intros s Hs Hes. apply in_app_or in Hs. destruct Hs as [Hs|[<-|[]]].
        -- exfalso. now apply (Hnone s).
        -- apply Qle_refl.
      * intros j s Hj Hs Hes. rewrite nth_error_app1 in Hs by exact Hj.
        exfalso. apply (Hnone s); [eapply nth_error_In; eauto | exact Hes].
  - assert (Hnel : ~ current_pos < start).
    { intro H. apply ltb_lt in H. unfold Py.gtb in Hel. congruence. }
    destruct best as [best|].
    + destruct Hacc as [-> (i & Hi & Hb & Hmin & Hfirst)]. simpl. split; [reflexivity|].
      exists i. repeat split.
      * rewrite nth_error_app1; [exact Hi|]. apply nth_error_Some. congruence.
      * exact Hb.
      * intros s Hs Hes. apply in_app_or in Hs. destruct Hs as [Hs|[<-|[]]].
        -- now apply Hmin.
        -- now exfalso.
      * intros j s Hj Hs Hes. apply (Hfirst j s Hj); [|exact Hes].
        rewrite nth_error_app1 in Hs; [exact Hs|].
        assert (i < List.length seen)%nat by (apply nth_error_Some; congruence). lia.
    + destruct Hacc as [-> Hnone]. simpl. split; [reflexivity|].
      intros s Hs. apply in_app_or in Hs. destruct Hs as [Hs|[<-|[]]].
      * now apply Hnone.
      * exact Hnel.
Qed.

Lemma scanned_fold (todo seen : list (Q * Q)) (acc : option (Q * Q) * Py.ext) :
  scanned' seen acc ->
  scanned' (seen ++ todo) (fold_left (scan_step current_pos target_split_time) todo acc).
Proof.
  revert seen acc. induction todo as [|s todo IH]; intros seen acc Hacc; simpl.
  - now rewrite app_nil_r.
  - replace (seen ++ s :: todo) with ((seen ++ [s]) ++ todo)
      by (now rewrite <- app_assoc).
    apply IH. now apply scanned_step.
Qed.

Lemma scanned_scan (silences : list (Q * Q)) :
  scanned' silences (scan silences current_pos target_split_time).
Proof.
  unfold scan. apply (scanned_fold silences []).
  unfold scanned. simpl. split; [reflexivity|]. intros s [].
Qed.

End Scan.

(** ** The split point of one iteration *)

Lemma split_point_cases (target_duration_sec : Q) (silences : list (Q * Q))
    (total_duration current_pos : Q) :
  split_point_at target_duration_sec silences total_duration current_pos = total_duration
  \/ exists best, In best silences /\ current_pos < fst best /\
       split_point_at target_duration_sec silences total_duration current_pos = midpoint best.
Proof.
  unfold split_point_at.
  destruct (Py.geb _ _); [now left|].
  pose proof (scanned_scan current_pos (current_pos + target_duration_sec) silences) as H.
  unfold scanned in H.
  destruct (fst (scan silences current_pos (current_pos + target_duration_sec))) as [best|];
    [|now left].
  destruct H as [_ (i & Hi & Hb & _)]. right. exists best. repeat split.
  - eapply nth_error_In; eauto.
  - exact Hb.
Qed.

(** ** The split point of one iteration, on binary64 floats *)

Module Binary64Facts.
Import SpecFloat PrimFloat FloatOps Binary64.
Local Open Scope float_scope.

Lemma SFcompare_rank (f g : spec_float) :
  SFcompare f g =
  match rank f, rank g with
  | Some x, Some y => Some (lex x y)
  | _, _ => None
  end.
Proof.
  destruct f as [s|s| |s m e], g as [s'|s'| |s' m' e'];
    try destruct s; try destruct s'; try reflexivity; simpl.
  rewrite Z.compare_opp, (Z.compare_antisym e e').
  destruct (e ?= e')%Z; reflexivity.
Qed.

Lemma lex_lt_trans (x y z : Z * Z * Z) : lex x y = Lt -> lex y z = Lt -> lex x z = Lt.
Proof.
  destruct x as [[a b] c], y as [[a' b'] c'], z as [[a'' b''] c'']. unfold lex.
  destruct (Z.compare_spec a a'), (Z.compare_spec a' a''), (Z.compare_spec a a'');
    try discriminate; try lia; try reflexivity;
  destruct (Z.compare_spec b b'), (Z.compare_spec b' b''), (Z.compare_spec b b'');
    try discriminate; try lia; try reflexivity;
  destruct (Z.compare_spec c c'), (Z.compare_spec c' c''), (Z.compare_spec c c'');
    try discriminate; try lia; try reflexivity.
Qed.

Lemma lex_le_lt_trans (x y z : Z * Z * Z) : lex x y = Eq -> lex y z = Lt -> lex x z = Lt.
Proof.
  destruct x as [[a b] c], y as [[a' b'] c'], z as [[a'' b''] c'']. unfold lex.
  destruct (Z.compare_spec a a'), (Z.compare_spec a' a''), (Z.compare_spec a a'');
    try discriminate; try lia; try reflexivity;
  destruct (Z.compare_spec b b'), (Z.compare_spec b' b''), (Z.compare_spec b b'');
    try discriminate; try lia; try reflexivity;
  destruct (Z.compare_spec c c'), (Z.compare_spec c' c''), (Z.compare_spec c c'');
    try discriminate; try lia; try reflexivity.
Qed.

Lemma lex_refl (x : Z * Z * Z) : lex x x = Eq.
Proof. destruct x as [[a b] c]. unfold lex. now rewrite !Z.compare_refl. Qed.

Lemma lex_antisym (x y : Z * Z * Z) : lex y x = CompOpp (lex x y).
Proof.
  destruct x as [[a b] c], y as [[a' b'] c']. unfold lex.
  rewrite (Z.compare_antisym a a'), (Z.compare_antisym b b'), (Z.compare_antisym c c').
  destruct (a ?= a')%Z, (b ?= b')%Z, (c ?= c')%Z; reflexivity.
Qed.


Lemma ltb_trans (x y z : float) : (x <? y) = true -> (y <? z) = true -> (x <? z) = true.
Proof.
  rewrite !FloatAxioms.ltb_spec. unfold SFltb. rewrite !SFcompare_rank.
  destruct (rank (Prim2SF x)) as [a|], (rank (Prim2SF y)) as [b|], (rank (Prim2SF z)) as [c|];
    try discriminate.
  destruct (lex a b) eqn:Hab; try discriminate.
  destruct (lex b c) eqn:Hbc; try discriminate.
  now rewrite (lex_lt_trans a b c Hab Hbc).
Qed.

Lemma leb_ltb_trans (x y z : float) : (x <=? y) = true -> (y <? z) = true -> (x <? z) = true.
Proof.
  rewrite FloatAxioms.leb_spec, !FloatAxioms.ltb_spec. unfold SFltb, SFleb.
  rewrite !SFcompare_rank.
  destruct (rank (Prim2SF x)) as [a|], (rank (Prim2SF y)) as [b|], (rank (Prim2SF z)) as [c|];
    try discriminate.
  destruct (lex a b) eqn:Hab; try discriminate;
  destruct (lex b c) eqn:Hbc; try discriminate; intros _ _.
  - now rewrite (lex_le_lt_trans a b c Hab Hbc).
  - now rewrite (lex_lt_trans a b c Hab Hbc).
Qed.

Lemma ltb_irrefl (x : float) : (x <? x) = false.
Proof.
  rewrite FloatAxioms.ltb_spec. unfold SFltb. rewrite SFcompare_rank.
  destruct (rank (Prim2SF x)) as [a|]; [|reflexivity]. now rewrite lex_refl.
Qed.

Lemma ltb_not_leb (x y : float) : (x <? y) = true -> (y <=? x) = false.
Proof.
  rewrite FloatAxioms.ltb_spec, FloatAxioms.leb_spec. unfold SFltb, SFleb.
  rewrite !SFcompare_rank.
  destruct (rank (Prim2SF x)) as [a|], (rank (Prim2SF y)) as [b|]; try discriminate.
  rewrite (lex_antisym a b). destruct (lex a b); try discriminate. reflexivity.
Qed.

(** Every float that is not NaN is at most [infinity]. *)
Lemma rank_bounded (f : spec_float) (a : Z * Z * Z) :
  rank f = Some a -> lex a (4, 0, 0)%Z = Lt \/ a = (4, 0, 0)%Z.
Proof.
  destruct f as [s|s| |s m e]; try destruct s; simpl; intros H;
    try discriminate; injection H as <-; auto.
Qed.

Lemma ltb_below_infinity (x y : float) : (x <? y) = true -> (x <? infinity) = true.
Proof.
  rewrite !FloatAxioms.ltb_spec. unfold SFltb. rewrite !SFcompare_rank.
  change (rank (Prim2SF infinity)) with (Some (4, 0, 0)%Z).
  destruct (rank (Prim2SF x)) as [a|] eqn:Ha, (rank (Prim2SF y)) as [b|] eqn:Hb;
    try discriminate.
  destruct (lex a b) eqn:Hab; try discriminate. intros _.
  destruct (rank_bounded _ _ Ha) as [-> | ->]; [reflexivity|].
  destruct (rank_bounded _ _ Hb) as [Hlt | ->].
  - rewrite (lex_antisym b), Hlt in Hab. discriminate.
  - discriminate.
Qed.

Section ScanBinary64.

Variable current_pos target_split_time : float.

Lemma not_ltb (x y : float) : ((x <? y) = true -> False) -> (x <? y) = false.
Proof. destruct (x <? y); [intros H; now exfalso | reflexivity]. Qed.

Lemma not_leb (x y : float) : ((x <=? y) = true -> False) -> (x <=? y) = false.
Proof. destruct (x <=? y); [intros H; now exfalso | reflexivity]. Qed.

Lemma binary64_scanned_step (seen : list (float * float)) (acc : option (float * float) * float)
    (s : float * float) :
  scanned current_pos target_split_time seen acc ->
  scanned current_pos target_split_time (seen ++ [s])
    (scan_step current_pos target_split_time acc s).
Proof.
  unfold scan_step. destruct s as [start end_], acc as [best md].
  intros [Hmin Hbest]. simpl snd in *. simpl fst in *.
  change (abs (start + (end_ - start) / 2 - target_split_time))
    with (distance target_split_time (start, end_)).
  destruct (current_pos <? start) eqn:Hel.
  - destruct (distance target_split_time (start, end_) <? md) eqn:Hlt.
    + (* the new silence is strictly nearer than everything before it *)
      split; simpl.
      * intros s Hs Hes. apply in_app_or in Hs. destruct Hs as [Hs | [<- | []]].
        -- apply not_ltb. intros Hc.
           pose proof (ltb_trans _ _ _ Hc Hlt) as Habs. rewrite (Hmin s Hs Hes) in Habs.
           discriminate.
        -- apply ltb_irrefl.
      * split; [reflexivity|]. split; [exact (ltb_below_infinity _ _ Hlt)|].
        exists (List.length seen). repeat split.
        -- rewrite nth_error_app2 by lia. now rewrite Nat.sub_diag.
        -- exact Hel.
        -- intros s Hs Hes. apply in_app_or in Hs. destruct Hs as [Hs | [<- | []]].
           ++ apply not_ltb. intros Hc.
              pose proof (ltb_trans _ _ _ Hc Hlt) as Habs. rewrite (Hmin s Hs Hes) in Habs.
              discriminate.
           ++ apply ltb_irrefl.
        -- intros j s Hj Hs Hes. rewrite nth_error_app1 in Hs by exact Hj.
           apply not_leb. intros Hc.
           pose proof (leb_ltb_trans _ _ _ Hc Hlt) as Habs.
           rewrite (Hmin s (nth_error_In _ _ Hs) Hes) in Habs. discriminate.
    + split; simpl.
      * intros s Hs Hes. apply in_app_or in Hs. destruct Hs as [Hs | [<- | []]].
        -- now apply Hmin.
        -- exact Hlt.
      * destruct best as [best|]; [|exact Hbest].
        destruct Hbest as (Hmd & Hfin & i & Hi & Hb & Hnear & Hfirst).
        split; [exact Hmd|]. split; [exact Hfin|]. exists i. repeat split.
        -- rewrite nth_error_app1; [exact Hi|]. apply nth_error_Some. congruence.
        -- exact Hb.
        -- intros s Hs Hes. apply in_app_or in Hs. destruct Hs as [Hs | [<- | []]].
           ++ now apply Hnear.
           ++ rewrite <- Hmd. exact Hlt.
        -- intros j s Hj Hs Hes. apply (Hfirst j s Hj); [|exact Hes].
           rewrite nth_error_app1 in Hs; [exact Hs|].
           assert (i < List.length seen)%nat by (apply nth_error_Some; congruence). lia.
  - split; simpl.
    + intros s Hs Hes. apply in_app_or in Hs. destruct Hs as [Hs | [<- | []]].
      * now apply Hmin.
      * simpl in Hes. congruence.
    + destruct best as [best|]; [|exact Hbest].
      destruct Hbest as (Hmd & Hfin & i & Hi & Hb & Hnear & Hfirst).
      split; [exact Hmd|]. split; [exact Hfin|]. exists i. repeat split.
      * rewrite nth_error_app1; [exact Hi|]. apply nth_error_Some. congruence.
      * exact Hb.
      * intros s Hs Hes. apply in_app_or in Hs. destruct Hs as [Hs | [<- | []]].
        -- now apply Hnear.
        -- simpl in Hes. congruence.
      * intros j s Hj Hs Hes. apply (Hfirst j s Hj); [|exact Hes].
        rewrite nth_error_app1 in Hs; [exact Hs|].
        assert (i < List.length seen)%nat by (apply nth_error_Some; congruence). lia.
Qed.

Lemma binary64_scanned_fold (todo seen : list (float * float)) (acc : option (float * float) * float) :
  scanned current_pos target_split_time seen acc ->
  scanned current_pos target_split_time (seen ++ todo)
    (fold_left (scan_step current_pos target_split_time) todo acc).
Proof.
  revert seen acc. induction todo as [|s todo IH]; intros seen acc Hacc; simpl.
  - now rewrite app_nil_r.
  - replace (seen ++ s :: todo) with ((seen ++ [s]) ++ todo) by (now rewrite <- app_assoc).
    apply IH. now apply binary64_scanned_step.
Qed.

Lemma binary64_scanned_scan (silences : list (float * float)) :
  scanned current_pos target_split_time silences
    (scan silences current_pos target_split_time).
Proof.
  unfold scan. apply (binary64_scanned_fold silences []).
  split; [intros s [] | reflexivity].
Qed.

End ScanBinary64.

(** C2. On a step that is not final ([current_pos + target_clip_duration
    < total_duration]), with the midpoints and distances as the loop
    computes them in binary64.  Only a silence that starts after
    [current_pos] is looked at.  When no silence does, the split point is
    [total_duration].  When one that does lies at a finite distance from
    the target split time, the split point is the midpoint
    [start + (end - start) / 2] of a silence that starts after
    [current_pos], than which no such silence is nearer to the target,
    and to which no such silence earlier in detection order is as near:
    the comparison is strict, so the first one wins a tie.  (When every
    silence that starts after [current_pos] is at an infinite or
    undefined distance, the split point is [total_duration] as well.) *)
Theorem nearest_eligible_midpoint_is_taken :
  forall (target_duration_sec : float) (silences : list (float * float))
         (total_duration current_pos : float),
    (current_pos + target_duration_sec <? total_duration) = true ->
    ((forall s, In s silences -> (current_pos <? fst s) = false) ->
     split_point_at target_duration_sec silences total_duration current_pos = total_duration)
    /\
    ((exists s, In s silences /\ (current_pos <? fst s) = true /\
                (distance (current_pos + target_duration_sec) s <? infinity) = true) ->
     exists i best,
       nearest_eligible current_pos (current_pos + target_duration_sec) silences i best /\
       split_point_at target_duration_sec silences total_duration current_pos
       = fst best + (snd best - fst best) / 2)
    /\
    ((forall s, In s silences -> (current_pos <? fst s) = true ->
        (distance (current_pos + target_duration_sec) s <? infinity) = false) ->
     split_point_at target_duration_sec silences total_duration current_pos = total_duration).
Proof.
  intros target silences total cur Hnonfinal.
  apply ltb_not_leb in Hnonfinal.
  pose proof (binary64_scanned_scan cur (cur + target) silences) as [Hmin Hbest].
  unfold split_point_at. rewrite Hnonfinal.
  destruct (fst (scan silences cur (cur + target))) as [best|].
  - destruct Hbest as (Hmd & Hfin & i & Hi & Hb & Hnear & Hfirst).
    rewrite Hmd in Hfin. pose proof (nth_error_In _ _ Hi) as Hin.
    split; [|split].
    + intros Hnone. rewrite (Hnone best Hin) in Hb. discriminate.
    + intros _. exists i, best. split; [|reflexivity]. now repeat split.
    + intros Hfar. rewrite (Hfar best Hin Hb) in Hfin. discriminate.
  - rewrite Hbest in Hmin. split; [|split].
    + reflexivity.
    + intros (s & Hs & Hes & Hfin). rewrite (Hmin s Hs Hes) in Hfin. discriminate.
    + reflexivity.
Qed.

#[local] Set Warnings "-inexact-float".

(** Two silences, from 1.8 to 2 and from 4 to 4.2, around a target of 3:
    the second one is taken, its computed distance being the smaller. *)
Lemma nearest_eligible_midpoint_is_taken_witness :
  (0 + 3 <? 10) = true /\
  exists i best,
    nearest_eligible 0 (0 + 3) [(1.8, 2); (4, 4.2)] i best /\
    split_point_at 3 [(1.8, 2); (4, 4.2)] 10 0 = fst best + (snd best - fst best) / 2.
Proof.
  split; [reflexivity|].
  refine (proj1 (proj2 (nearest_eligible_midpoint_is_taken 3 [(1.8, 2); (4, 4.2)] 10 0 _)) _).
  - reflexivity.
  - exists (4, 4.2). split; [right; left; reflexivity|]. split; reflexivity.
Defined.

Example second_silence_is_nearer :
  split_point_at 3 [(1.8, 2); (4, 4.2)] 10 0 = midpoint (4, 4.2)
  /\ (distance 3 (4, 4.2) <? distance 3 (1.8, 2)) = true.
Proof. split; reflexivity. Qed.

Example first_silence_wins_tie :
  split_point_at 300 [(298, 300); (300, 302)] 600 0 = 299
  /\ (distance 300 (298, 300) =? distance 300 (300, 302)) = true.
Proof. split; reflexivity. Qed.

Example no_silence_ahead :
  split_point_at 300 [(298, 302)] 601 300 = 601.
Proof. reflexivity. Qed.

End Binary64Facts.

(** ** The split point in the pipeline *)

Example split_point_tie :
  Qred (split_point_at 300 [(298, 300); (300, 302)] 600 0) = 299.
Proof. reflexivity. Qed.

Example split_point_no_eligible :
  split_point_at 300 [(298, 302)] 601 300 = 601.
Proof. reflexivity. Qed.

(** ** The planning loop *)

Section Loop.

Variable subprocess_run : command -> CompletedProcess.
Variable input_file : string.
Variable target_duration_sec : Q.
Variable output_dir : string.
Variable silences : list (Q * Q).
Variable total_duration : Q.

Local Abbreviation loop :=
  (split_loop subprocess_run input_file target_duration_sec output_dir silences total_duration).
Local Abbreviation split_point :=
  (split_point_at target_duration_sec silences total_duration).
Local Abbreviation planned := (planned_from target_duration_sec silences total_duration).
Local Abbreviation events := (clip_events input_file output_dir).
Local Abbreviation info := (info_of input_file).
Local Abbreviation done := (extracted subprocess_run input_file output_dir).

(** One test of the loop condition and, when it holds, one run of the
    body. *)
Lemma split_loop_step (fuel : nat) (current_pos : Q) (clip_num : nat)
    (clip_manifest : list clip_info) :
  loop (S fuel) current_pos clip_num clip_manifest =
  if Py.ltb current_pos total_duration then
    if Py.ltb (split_point current_pos - current_pos) 1 then Some ([], Return clip_manifest)
    else
      let c := mkClip clip_num current_pos (split_point current_pos) in
      if negb (returncode (subprocess_run
                 (copy_command input_file current_pos (split_point current_pos)
                    (output_filepath_of input_file output_dir c))) =? 0)%Z
      then Some (events c, Raise CalledProcessError)
      else
        match loop fuel (split_point current_pos) (S clip_num) (clip_manifest ++ [info c]) with
        | None => None
        | Some (t, o) => Some (events c ++ t, o)
        end
  else Some ([], Return clip_manifest).
Proof.
  simpl. destruct (Py.ltb current_pos total_duration); [|reflexivity].
  destruct (Py.ltb _ 1); [reflexivity|].
  unfold bind, print, emit, run, ret, raise, output_filepath_of. simpl.
  destruct (negb _); [reflexivity|].
  destruct (split_loop _ _ _ _ _ _ fuel _ _ _) as [[t o]|]; reflexivity.
Qed.

Lemma final_pos_cons (current_pos : Q) (c : ClipPlan) (rest : list ClipPlan) :
  final_pos current_pos (c :: rest) = final_pos (source_end c) rest.
Proof.
  unfold final_pos. simpl map.
  generalize (source_end c) as x. generalize current_pos as d.
  generalize (map source_end rest) as l.
  induction l as [|y l IH]; intros d x; [reflexivity|].
  change (last (x :: y :: l) d) with (last (y :: l) d).
  now rewrite (IH d y), (IH x y).
Qed.

(** What a run of the loop that does not run out of fuel leaves behind. *)
Lemma split_loop_spec (fuel : nat) :
  forall current_pos clip_num clip_manifest t o,
    loop fuel current_pos clip_num clip_manifest = Some (t, o) ->
    exists plans,
      t = flat_map events plans /\
      planned current_pos clip_num plans /\
      match o with
      | Return m =>
          m = clip_manifest ++ map info plans /\
          Forall done plans /\
          (exhausted total_duration (final_pos current_pos plans)
           \/ short_tail target_duration_sec silences total_duration
                (final_pos current_pos plans))
      | Raise e =>
          e = CalledProcessError /\
          exists before c, plans = before ++ [c] /\ Forall done before /\ ~ done c
      | SysExit _ => False
      end.
Proof.
  induction fuel as [|fuel IH]; intros cur n m t o H; [discriminate|].
  rewrite split_loop_step in H.
  destruct (Py.ltb cur total_duration) eqn:Hcond.
  - apply ltb_lt in Hcond.
    destruct (Py.ltb (split_point cur - cur) 1) eqn:Hmin.
    + injection H as <- <-. exists []. apply ltb_lt in Hmin. simpl.
      repeat split; [now rewrite app_nil_r | constructor | right; now split].
    + apply ltb_ge in Hmin. cbv zeta in H.
      set (c := mkClip n cur (split_point cur)) in *.
      destruct (negb _) eqn:Hrc.
      * injection H as <- <-. exists [c]. simpl.
        repeat split; try reflexivity; try assumption.
        exists [], c. repeat split; [constructor|].
        unfold extracted. intro Hz. apply negb_true_iff, Z.eqb_neq in Hrc. now apply Hrc.
      * destruct (loop fuel _ _ _) as [[t' o']|] eqn:Hrec; [|discriminate].
        injection H as <- <-.
        destruct (IH _ _ _ _ _ Hrec) as (plans & -> & Hplanned & Hend).
        assert (Hdone : done c).
        { unfold extracted. apply negb_false_iff, Z.eqb_eq in Hrc. exact Hrc. }
        exists (c :: plans). split; [reflexivity|]. split.
        { simpl. repeat split; try reflexivity; assumption. }
        destruct o' as [m'|code|e].
        -- destruct Hend as (-> & Hall & Hfin). rewrite final_pos_cons.
           repeat split; [now rewrite <- app_assoc | now constructor | exact Hfin].
        -- exact Hend.
        -- destruct Hend as (-> & before & c' & -> & Hall & Hfail). split; [reflexivity|].
           exists (c :: before), c'. repeat split; [now constructor | exact Hfail].
  - injection H as <- <-. exists []. simpl.
    repeat split; [now rewrite app_nil_r | constructor |].
    left. unfold exhausted, final_pos. simpl. intro Hlt. apply ltb_lt in Hlt. congruence.
Qed.

End Loop.

(** ** Sequences of planned clips *)

Section Plans.

Variable target_duration_sec : Q.
Variable silences : list (Q * Q).
Variable total_duration : Q.

Local Abbreviation split_point :=
  (split_point_at target_duration_sec silences total_duration).
Local Abbreviation planned := (planned_from target_duration_sec silences total_duration).





Lemma planned_numbers (plans : list ClipPlan) :
  forall current_pos clip_num, planned current_pos clip_num plans ->
    forall i c, nth_error plans i = Some c -> sequence_number c = (clip_num + i)%nat.
Proof.
  induction plans as [|c rest IH]; intros cur n Hp i c' Hc.
  - destruct i; discriminate.
  - simpl in Hp. destruct Hp as (Hn & _ & _ & _ & _ & Hrest).
    destruct i as [|i].
    + injection Hc as <-. lia.
    + simpl in Hc. rewrite (IH _ _ Hrest i c' Hc). lia.
Qed.

(** When no silence has its midpoint after the end of the file, the
    cursor never passes the end. *)
Lemma split_point_bounded (current_pos : Q) :
  (forall s, In s silences -> midpoint s <= total_duration) ->
  split_point current_pos <= total_duration.
Proof.
  intros Hin.
  destruct (split_point_cases target_duration_sec silences total_duration current_pos)
    as [-> | (best & Hb & _ & ->)].
  - apply Qle_refl.
  - now apply Hin.
Qed.


(** Two runs of the loop from the same state that both leave it have
    planned the same clips. *)
Lemma planned_unique (plans1 : list ClipPlan) :
  forall plans2 current_pos clip_num,
    planned current_pos clip_num plans1 ->
    planned current_pos clip_num plans2 ->
    (exhausted total_duration (final_pos current_pos plans1)
     \/ short_tail target_duration_sec silences total_duration (final_pos current_pos plans1)) ->
    (exhausted total_duration (final_pos current_pos plans2)
     \/ short_tail target_duration_sec silences total_duration (final_pos current_pos plans2)) ->
    plans1 = plans2.
Proof.
  assert (Hstop : forall cur n c rest,
    planned cur n (c :: rest) ->
    ~ (exhausted total_duration cur
       \/ short_tail target_duration_sec silences total_duration cur)).
  { intros cur n c rest (_ & Hs & He & Hlt & Hlen & _) [Hex | [_ Hshort]].
    - now apply Hex.
    - rewrite Hs, He in Hlen. lra. }
  induction plans1 as [|c1 rest1 IH]; intros [|c2 rest2] cur n H1 H2 S1 S2.
  - reflexivity.
  - exfalso. exact (Hstop _ _ _ _ H2 S1).
  - exfalso. exact (Hstop _ _ _ _ H1 S2).
  - rewrite final_pos_cons in S1, S2.
    simpl in H1, H2.
    destruct H1 as (Hn1 & Hs1 & He1 & _ & _ & Hr1), H2 as (Hn2 & Hs2 & He2 & _ & _ & Hr2).
    assert (Heq : c1 = c2).
    { destruct c1, c2; simpl in *; congruence. }
    subst c2. f_equal. exact (IH rest2 _ _ Hr1 Hr2 S1 S2).
Qed.

End Plans.

(** ** Reading the trace of the loop *)

Section Traces.

Variable input_file output_dir : string.

Local Abbreviation events := (clip_events input_file output_dir).

Lemma plans_of_app (t1 t2 : list event) : plans_of (t1 ++ t2) = plans_of t1 ++ plans_of t2.
Proof. apply flat_map_app. Qed.

Lemma runs_of_app (t1 t2 : list event) : runs_of (t1 ++ t2) = runs_of t1 ++ runs_of t2.
Proof. apply flat_map_app. Qed.

Lemma dumps_of_app (t1 t2 : list event) : dumps_of (t1 ++ t2) = dumps_of t1 ++ dumps_of t2.
Proof. apply flat_map_app. Qed.

Lemma plans_of_clip_events (plans : list ClipPlan) : plans_of (flat_map events plans) = plans.
Proof.
  induction plans as [|c rest IH]; [reflexivity|].
  change (flat_map events (c :: rest)) with (events c ++ flat_map events rest).
  rewrite plans_of_app, IH. now destruct c.
Qed.

Lemma dumps_of_clip_events (plans : list ClipPlan) : dumps_of (flat_map events plans) = [].
Proof.
  induction plans as [|c rest IH]; [reflexivity|].
  change (flat_map events (c :: rest)) with (events c ++ flat_map events rest).
  rewrite dumps_of_app, IH. reflexivity.
Qed.

Lemma runs_of_clip_events (plans : list ClipPlan) :
  runs_of (flat_map events plans)
  = map (fun c => copy_command input_file (source_start c) (source_end c)
                    (output_filepath_of input_file output_dir c)) plans.
Proof.
  induction plans as [|c rest IH]; [reflexivity|].
  change (flat_map events (c :: rest)) with (events c ++ flat_map events rest).
  rewrite runs_of_app, IH. reflexivity.
Qed.

Lemma cut_points_clip_events (plans : list ClipPlan) :
  cut_points (flat_map events plans) = map source_start plans.
Proof.
  unfold cut_points. rewrite runs_of_clip_events.
  induction plans as [|c rest IH]; [reflexivity|].
  simpl. now rewrite IH.
Qed.

End Traces.

(** ** Termination of the loop *)

Lemma filter_length_mono {A : Type} (f g : A -> bool) (l : list A) :
  (forall x, g x = true -> f x = true) ->
  (List.length (filter g l) <= List.length (filter f l))%nat.
Proof.
  intros Himp. induction l as [|x l IH]; simpl; [lia|].
  destruct (g x) eqn:Hg.
  - rewrite (Himp x Hg). simpl. lia.
  - destruct (f x); simpl; lia.
Qed.

Lemma filter_length_lt {A : Type} (f g : A -> bool) (l : list A) (b : A) :
  (forall x, g x = true -> f x = true) ->
  In b l -> f b = true -> g b = false ->
  (List.length (filter g l) < List.length (filter f l))%nat.
Proof.
  intros Himp Hin Hf Hg. induction l as [|x l IH]; simpl; [destruct Hin|].
  destruct Hin as [-> | Hin].
  - rewrite Hf, Hg. simpl. pose proof (filter_length_mono f g l Himp). lia.
  - specialize (IH Hin). destruct (g x) eqn:Hgx.
    + rewrite (Himp x Hgx). simpl. lia.
    + destruct (f x); simpl; lia.
Qed.

Lemma remaining_decreases (silences : list (Q * Q)) (current_pos : Q) (best : Q * Q) :
  In best silences -> 1 <= midpoint best - current_pos ->
  (remaining silences (midpoint best) < remaining silences current_pos)%nat.
Proof.
  intros Hin Hlen. unfold remaining.
  apply filter_length_lt with (b := best).
  - intros s Hs. apply ltb_lt in Hs. apply ltb_lt. lra.
  - exact Hin.
  - apply ltb_lt. lra.
  - apply ltb_ge. apply Qle_refl.
Qed.

Lemma remaining_le_length (silences : list (Q * Q)) (current_pos : Q) :
  (remaining silences current_pos <= List.length silences)%nat.
Proof. apply filter_length_le. Qed.

Section Termination.

Variable subprocess_run : command -> CompletedProcess.
Variable input_file : string.
Variable target_duration_sec : Q.
Variable output_dir : string.
Variable silences : list (Q * Q).
Variable total_duration : Q.

Local Abbreviation loop :=
  (split_loop subprocess_run input_file target_duration_sec output_dir silences total_duration).
Local Abbreviation split_point :=
  (split_point_at target_duration_sec silences total_duration).

Lemma split_loop_at_end (fuel : nat) (clip_num : nat) (clip_manifest : list clip_info) :
  loop (S fuel) total_duration clip_num clip_manifest = Some ([], Return clip_manifest).
Proof.
  rewrite split_loop_step.
  replace (Py.ltb total_duration total_duration) with false; [reflexivity|].
  symmetry. apply ltb_ge. apply Qle_refl.
Qed.

(** The loop does not run out of fuel when it has two units more than
    there are silences with a midpoint ahead of the cursor. *)
Lemma split_loop_total (fuel : nat) :
  forall current_pos clip_num clip_manifest,
    (remaining silences current_pos + 2 <= fuel)%nat ->
    loop fuel current_pos clip_num clip_manifest <> None.
Proof.
  induction fuel as [|fuel IH]; intros cur n m Hfuel; [lia|].
  rewrite split_loop_step.
  destruct (Py.ltb cur total_duration); [|discriminate].
  destruct (Py.ltb (split_point cur - cur) 1) eqn:Hmin; [discriminate|].
  apply ltb_ge in Hmin. cbv zeta.
  destruct (negb _); [discriminate|].
  match goal with |- context [loop fuel ?p ?k ?l] => assert (Hrec : loop fuel p k l <> None) end.
  { destruct (split_point_cases target_duration_sec silences total_duration cur)
      as [Heq | (best & Hin & _ & Heq)]; rewrite Heq in *.
    - destruct fuel as [|fuel']; [lia|]. rewrite split_loop_at_end. discriminate.
    - apply IH. pose proof (remaining_decreases silences cur best Hin Hmin). lia. }
  destruct (loop fuel _ _ _) as [[t o]|]; [discriminate | contradiction].
Qed.


Local Abbreviation path := (manifest_filepath input_file output_dir).

(** [split_audio] is the loop followed by the dump of the manifest. *)
Lemma split_audio_fuel_eq (fuel : nat) :
  split_audio_fuel subprocess_run input_file target_duration_sec output_dir silences
    total_duration fuel
  = match loop fuel 0 1 [] with
    | None => None
    | Some (t, Return m) =>
        Some (t ++ [Print (WritingManifest path); Dump path (JArray (map clip_info_json m))],
              Return tt)
    | Some (t, SysExit code) => Some (t, SysExit code)
    | Some (t, Raise e) => Some (t, Raise e)
    end.
Proof.
  unfold split_audio_fuel, bind.
  destruct (split_loop _ _ _ _ _ _ fuel 0 1 []) as [[t [m|code|e]]|]; reflexivity.
Qed.

Lemma split_audio_fuel_total (fuel : nat) :
  (List.length silences + 2 <= fuel)%nat ->
  split_audio_fuel subprocess_run input_file target_duration_sec output_dir silences
    total_duration fuel <> None.
Proof.
  intros Hfuel. rewrite split_audio_fuel_eq.
  assert (Hloop : loop fuel 0 1 [] <> None).
  { apply split_loop_total. pose proof (remaining_le_length silences 0). lia. }
  destruct (loop fuel 0 1 []) as [[t [m|code|e]]|]; [discriminate.. | contradiction].
Qed.


(** What a run of [split_audio] leaves behind. *)
Lemma split_audio_fuel_spec (fuel : nat) (t : list event) (o : outcome unit) :
  split_audio_fuel subprocess_run input_file target_duration_sec output_dir silences
    total_duration fuel = Some (t, o) ->
  planned_from target_duration_sec silences total_duration 0 1 (plans_of t) /\
  match o with
  | Return _ =>
      t = flat_map (clip_events input_file output_dir) (plans_of t)
          ++ [Print (WritingManifest path);
              Dump path (JArray (map clip_info_json (map (info_of input_file) (plans_of t))))] /\
      Forall (extracted subprocess_run input_file output_dir) (plans_of t) /\
      (exhausted total_duration (final_pos 0 (plans_of t))
       \/ short_tail target_duration_sec silences total_duration (final_pos 0 (plans_of t)))
  | Raise e =>
      e = CalledProcessError /\
      t = flat_map (clip_events input_file output_dir) (plans_of t) /\
      exists before c, plans_of t = before ++ [c] /\
        Forall (extracted subprocess_run input_file output_dir) before /\
        ~ extracted subprocess_run input_file output_dir c
  | SysExit _ => False
  end.
Proof.
  rewrite split_audio_fuel_eq.
  destruct (loop fuel 0 1 []) as [[t' o']|] eqn:Hloop; [|discriminate].
  destruct (split_loop_spec _ _ _ _ _ _ _ _ _ _ _ _ Hloop) as (plans & -> & Hplanned & Hend).
  destruct o' as [m|code|e]; intros [= <- <-].
  - destruct Hend as (-> & Hall & Hfin).
    rewrite plans_of_app, plans_of_clip_events. simpl. rewrite app_nil_r.
    repeat split; assumption.
  - destruct Hend.
  - rewrite plans_of_clip_events. destruct Hend as (-> & Hlast).
    repeat split; assumption.
Qed.

End Termination.

(** * The claims about the planner *)






Example dropped_tail :
  exists t,
    split_audio Machine.quiet "talk.mp3" 300 "out" [(299, 301); (599, 601)] (1201 # 2)
      = Some (t, Return tt) /\
    map (fun c => (sequence_number c, Qred (source_start c), Qred (source_end c))) (plans_of t)
      = [(1%nat, 0, 300); (2%nat, 300, 600)].
Proof. eexists. split; reflexivity. Qed.

Lemma planned_prefix (target_duration_sec : Q) (silences : list (Q * Q))
    (total_duration : Q) (plans1 : list ClipPlan) :
  forall plans2 current_pos clip_num,
    planned_from target_duration_sec silences total_duration current_pos clip_num plans1 ->
    planned_from target_duration_sec silences total_duration current_pos clip_num plans2 ->
    exists rest, plans1 = plans2 ++ rest \/ plans2 = plans1 ++ rest.
Proof.
  induction plans1 as [|c1 rest1 IH]; intros [|c2 rest2] cur n H1 H2.
  - exists []. now left.
  - exists (c2 :: rest2). now right.
  - exists (c1 :: rest1). now left.
  - simpl in H1, H2.
    destruct H1 as (Hn1 & Hs1 & He1 & _ & _ & Hr1), H2 as (Hn2 & Hs2 & He2 & _ & _ & Hr2).
    assert (Heq : c1 = c2) by (destruct c1, c2; simpl in *; congruence).
    subst c2. destruct (IH rest2 _ _ Hr1 Hr2) as [rest [-> | ->]]; exists rest.
    + now left.
    + now right.
Qed.

(** C8 (as amended). The clips planned depend on [total_duration], the
    target clip duration and the silences only, up to the failure of an
    extraction: of two runs on these, whatever the file names and the
    behaviour of the external processes, the clips of one are an initial
    segment of the clips of the other, and they are the same clips
    (numbers, starts and ends) when both runs complete. *)
Theorem planner_deterministic :
  forall (run1 run2 : command -> CompletedProcess) (input1 input2 out1 out2 : string)
         (target_duration_sec : Q) (silences : list (Q * Q)) (total_duration : Q)
         (t1 t2 : list event) (o1 o2 : outcome unit),
    split_audio run1 input1 target_duration_sec out1 silences total_duration
      = Some (t1, o1) ->
    split_audio run2 input2 target_duration_sec out2 silences total_duration
      = Some (t2, o2) ->
    (exists rest, plans_of t1 = plans_of t2 ++ rest \/ plans_of t2 = plans_of t1 ++ rest) /\
    (o1 = Return tt -> o2 = Return tt -> plans_of t1 = plans_of t2).
Proof.
  intros run1 run2 input1 input2 out1 out2 target silences total t1 t2 o1 o2 H1 H2.
  apply split_audio_fuel_spec in H1, H2.
  destruct H1 as [P1 E1], H2 as [P2 E2]. split.
  - exact (planned_prefix target silences total _ _ 0 1%nat P1 P2).
  - intros -> ->. destruct E1 as (_ & _ & S1), E2 as (_ & _ & S2).
    exact (planned_unique target silences total _ _ 0 1%nat P1 P2 S1 S2).
Qed.

Lemma planner_deterministic_witness :
  exists t1 t2,
    split_audio Machine.quiet "talk.mp3" 300 "out" [(298, 302)] 600 = Some (t1, Return tt) /\
    split_audio (Machine.subprocess_run 0 "600" 1 "ok" 0) "/srv/a.wav" 300 "/tmp" [(298, 302)] 600
      = Some (t2, Return tt) /\
    (exists rest, plans_of t1 = plans_of t2 ++ rest \/ plans_of t2 = plans_of t1 ++ rest) /\
    (Return tt = Return tt -> Return tt = Return tt -> plans_of t1 = plans_of t2).
Proof.
  eexists. eexists. split; [reflexivity|]. split; [reflexivity|].
  apply (planner_deterministic Machine.quiet (Machine.subprocess_run 0 "600" 1 "ok" 0)
           "talk.mp3" "/srv/a.wav" "out" "/tmp" 300 [(298, 302)] 600); reflexivity.
Defined.

(** C8 (as stated) fails: on the same duration, target and silences, a
    run whose first stream copy fails has announced one clip when it
    stops, and a run whose copies succeed two. *)
Lemma failed_copy_cuts_plan_short :
  exists t1 t2,
    split_audio Machine.quiet "talk.mp3" 300 "out" [(298, 302)] 600 = Some (t1, Return tt) /\
    split_audio (Machine.subprocess_run 0 EmptyString 0 EmptyString 1)
      "talk.mp3" 300 "out" [(298, 302)] 600 = Some (t2, Raise CalledProcessError) /\
    List.length (plans_of t1) = 2%nat /\
    List.length (plans_of t2) = 1%nat /\
    plans_of t1 <> plans_of t2.
Proof.
  eexists. eexists. split; [reflexivity|]. split; [reflexivity|].
  split; [reflexivity|]. split; [reflexivity|].
  intros H. apply (f_equal (@List.length ClipPlan)) in H. vm_compute in H. discriminate.
Qed.



(** * The manifest *)

(** ** Rounding *)


Lemma round_half_even_integer (x : Q) :
  inject_Z (Qfloor x) == x -> Py.round_half_even x = Qfloor x.
Proof.
  intros Hint. unfold Py.round_half_even.
  replace (Qcompare (x - inject_Z (Qfloor x)) (1 # 2)) with Lt; [reflexivity|].
  symmetry. apply (proj1 (Qlt_alt _ _)). lra.
Qed.


(** It is [x] itself when [x] has at most four decimals. *)
Lemma round_4_exact (x : Q) :
  inject_Z (Qfloor (x * 10000)) == x * 10000 -> Py.round x 4 == x.
Proof.
  intros Hint. unfold Py.round. change (inject_Z (10 ^ Z.of_nat 4)) with 10000.
  rewrite (round_half_even_integer _ Hint), Hint. field.
Qed.

(** ** What is written, against what was cut *)

Lemma manifest_times_of_infos (input_file : string) (plans : list ClipPlan) :
  flat_map entry_times (map clip_info_json (map (info_of input_file) plans))
  = map (fun c => Py.round (source_start c) 4) plans.
Proof.
  induction plans as [|c rest IH]; [reflexivity|].
  simpl. now rewrite IH.
Qed.

Lemma completed_run_times (subprocess_run : command -> CompletedProcess) (input_file : string)
    (target_duration_sec : Q) (output_dir : string) (silences : list (Q * Q))
    (total_duration : Q) (t : list event) :
  split_audio subprocess_run input_file target_duration_sec output_dir silences
    total_duration = Some (t, Return tt) ->
  cut_points t = map source_start (plans_of t) /\
  manifest_times t = map (fun c => Py.round (source_start c) 4) (plans_of t).
Proof.
  intros Hrun. apply split_audio_fuel_spec in Hrun. destruct Hrun as [_ (Ht & _)].
  set (plans := plans_of t) in *. rewrite Ht. split.
  - unfold cut_points. rewrite runs_of_app. simpl. rewrite app_nil_r.
    apply cut_points_clip_events.
  - unfold manifest_times. rewrite dumps_of_app, dumps_of_clip_events. simpl.
    rewrite app_nil_r. apply manifest_times_of_infos.
Qed.




(** * The pipeline *)

Section Pipeline.

Variable float : string -> option Q.
Variable subprocess_run : command -> CompletedProcess.

Local Abbreviation floats_of := (floats_of float).

Lemma run_command_eq (c : command) :
  run_command subprocess_run c =
  if reports_error (subprocess_run c)
  then Some ([Run c; Print (ErrorExecutingCommand c); Print (StderrWas (stderr (subprocess_run c)))],
             SysExit 1%Z)
  else Some ([Run c], Return (stderr (subprocess_run c))).
Proof.
  unfold run_command, reports_error, run, bind, emit, print, ret, sys_exit. simpl.
  destruct (negb _ && _); reflexivity.
Qed.

Lemma get_total_duration_eq (input_file : string) :
  get_total_duration float subprocess_run input_file =
  let c := ffprobe_command input_file in
  if negb (returncode (subprocess_run c) =? 0)%Z
  then Some ([Print GettingDuration; Run c], Raise CalledProcessError)
  else
    match float (Str.strip (stdout (subprocess_run c))) with
    | Some x => Some ([Print GettingDuration; Run c], Return x)
    | None => Some ([Print GettingDuration; Run c; Print CouldNotDetermineDuration], SysExit 1%Z)
    end.
Proof.
  unfold get_total_duration, run, bind, emit, print, ret, sys_exit, raise. simpl.
  destruct (negb _); [reflexivity|].
  destruct (float _); reflexivity.
Qed.

Lemma to_silences_eq (pairs : list (string * string)) :
  to_silences float pairs =
  match floats_of pairs with
  | Some silences => Some ([], Return silences)
  | None => Some ([], Raise ValueError)
  end.
Proof.
  induction pairs as [|[start end_] rest IH]; [reflexivity|].
  simpl. destruct (float start); [|reflexivity]. destruct (float end_); [|reflexivity].
  rewrite IH. destruct (floats_of rest); reflexivity.
Qed.

Lemma floats_of_spec (pairs : list (string * string)) :
  forall silences, floats_of pairs = Some silences ->
    List.length silences = List.length pairs /\
    forall i s e, nth_error silences i = Some (s, e) ->
      exists a b, nth_error pairs i = Some (a, b) /\ float a = Some s /\ float b = Some e.
Proof.
  induction pairs as [|[start end_] rest IH]; intros silences H.
  - injection H as <-. split; [reflexivity|]. intros [|i] s e Hi; discriminate.
  - simpl in H.
    destruct (float start) as [s0|] eqn:Hs; [|discriminate].
    destruct (float end_) as [e0|] eqn:He; [|discriminate].
    destruct (floats_of rest) as [silences'|]; [|discriminate].
    injection H as <-. destruct (IH _ eq_refl) as [Hlen Hnth]. split.
    + simpl. now rewrite Hlen.
    + intros [|i] s e Hi.
      * injection Hi as <- <-. now exists start, end_.
      * exact (Hnth i s e Hi).
Qed.

Lemma find_silences_eq (input_file : string) :
  find_silences float subprocess_run input_file =
  let c := silencedetect_command input_file in
  let result := subprocess_run c in
  if reports_error result
  then Some ([Print DetectingSilences; Run c; Print (ErrorExecutingCommand c);
              Print (StderrWas (stderr result))], SysExit 1%Z)
  else
    let start_times := Str.findall "silence_start: " (stderr result) in
    let end_times := Str.findall "silence_end: " (stderr result) in
    match combine start_times end_times with
    | [] => Some ([Print DetectingSilences; Run c; Print NoSilencesDetected], SysExit 1%Z)
    | pairs =>
        match floats_of pairs with
        | Some silences =>
            Some ([Print DetectingSilences; Run c;
                   Print (FoundSplitPoints (List.length silences))], Return silences)
        | None => Some ([Print DetectingSilences; Run c], Raise ValueError)
        end
    end.
Proof.
  unfold find_silences. rewrite run_command_eq. cbv zeta.
  destruct (reports_error _); [reflexivity|].
  unfold bind at 1 2. unfold print at 1. unfold emit at 1. simpl app.
  destruct (Str.findall "silence_start: " _) as [|a starts]; [reflexivity|].
  destruct (Str.findall "silence_end: " _) as [|b ends]; [reflexivity|].
  rewrite to_silences_eq.
  change (combine (a :: starts) (b :: ends)) with ((a, b) :: combine starts ends).
  cbv beta iota.
  destruct (floats_of ((a, b) :: combine starts ends)); reflexivity.
Qed.

Lemma floats_of_total (pairs : list (string * string)) :
  (forall a b, In (a, b) pairs -> float a <> None /\ float b <> None) ->
  floats_of pairs <> None.
Proof.
  induction pairs as [|[start end_] rest IH]; intros Hok; [discriminate|].
  simpl. destruct (Hok start end_ (or_introl eq_refl)) as [Hs He].
  destruct (float start); [|contradiction]. destruct (float end_); [|contradiction].
  assert (Hrest : floats_of rest <> None).
  { apply IH. intros a b Hin. apply Hok. now right. }
  destruct (floats_of rest); [discriminate | contradiction].
Qed.

(** [find_silences] returns when the detector is not taken to have
    failed, its report has a marker of each kind, and [float] reads every
    number the pattern captured. *)
Lemma find_silences_returns (input_file : string) :
  let result := subprocess_run (silencedetect_command input_file) in
  let start_times := Str.findall "silence_start: " (stderr result) in
  let end_times := Str.findall "silence_end: " (stderr result) in
  reports_error result = false ->
  start_times <> [] -> end_times <> [] ->
  Forall (fun a => float a <> None) start_times ->
  Forall (fun b => float b <> None) end_times ->
  exists t silences,
    find_silences float subprocess_run input_file = Some (t, Return silences).
Proof.
  intros result start_times end_times Hok Hs He Fs Fe.
  rewrite find_silences_eq. cbv zeta.
  fold result. fold start_times. fold end_times. rewrite Hok.
  assert (Hall : floats_of (combine start_times end_times) <> None).
  { apply floats_of_total. intros a b Hin. rewrite Forall_forall in Fs, Fe. split.
    - apply Fs. eapply in_combine_l; eauto.
    - apply Fe. eapply in_combine_r; eauto. }
  destruct start_times as [|a starts]; [contradiction|].
  destruct end_times as [|b ends]; [contradiction|].
  change (combine (a :: starts) (b :: ends)) with ((a, b) :: combine starts ends) in *.
  cbv beta iota.
  destruct (floats_of ((a, b) :: combine starts ends)) as [silences|]; [|contradiction].
  eexists. eexists. reflexivity.
Qed.

End Pipeline.

(** * The claims about the pipeline *)

Lemma nth_error_combine {A B : Type} (l : list A) :
  forall (l' : list B) i a b,
    nth_error (combine l l') i = Some (a, b) ->
    nth_error l i = Some a /\ nth_error l' i = Some b.
Proof.
  induction l as [|x l IH]; intros [|y l'] i a b H; try (destruct i; discriminate).
  destruct i as [|i].
  - injection H as <- <-. now split.
  - exact (IH l' i a b H).
Qed.

(** X15. The intervals [find_silences] returns pair the i-th number the
    pattern captures after [silence_start: ] with the i-th number it
    captures after [silence_end: ], in order; there are as many as the
    shorter of the two lists of captures, so three captured starts with
    two captured ends give two intervals. *)
Theorem silences_pair_markers_in_order :
  forall (float : string -> option Q) (subprocess_run : command -> CompletedProcess)
         (input_file : string) (t : list event) (silences : list (Q * Q)),
    find_silences float subprocess_run input_file = Some (t, Return silences) ->
    let output := stderr (subprocess_run (silencedetect_command input_file)) in
    let start_times := Str.findall "silence_start: " output in
    let end_times := Str.findall "silence_end: " output in
    List.length silences = Nat.min (List.length start_times) (List.length end_times) /\
    (forall i s e, nth_error silences i = Some (s, e) ->
       exists a b, nth_error start_times i = Some a /\ nth_error end_times i = Some b /\
                   float a = Some s /\ float b = Some e) /\
    (List.length start_times = 3%nat -> List.length end_times = 2%nat ->
     List.length silences = 2%nat).
Proof.
  intros float run input t silences H output start_times end_times.
  rewrite find_silences_eq in H. cbv zeta in H.
  fold output in H. fold start_times in H. fold end_times in H.
  destruct (reports_error _); [discriminate|].
  assert (Hf : floats_of float (combine start_times end_times) = Some silences).
  { destruct (combine start_times end_times) as [|p pairs]; [discriminate|].
    destruct (floats_of float (p :: pairs)); [|discriminate]. now injection H as _ ->. }
  destruct (floats_of_spec float _ _ Hf) as [Hlen Hnth].
  rewrite length_combine in Hlen.
  split; [exact Hlen|]. split.
  - intros i s e Hi. destruct (Hnth i s e Hi) as (a & b & Hab & Ha & Hb).
    destruct (nth_error_combine _ _ _ _ _ Hab) as [Hsa Heb].
    now exists a, b.
  - intros H3 H2. rewrite Hlen, H3, H2. reflexivity.
Qed.

Lemma silences_pair_markers_in_order_witness :
  exists t silences,
    find_silences Decimal.float
      (Machine.subprocess_run 0 "20" 0 Machine.three_starts_two_ends 0) "talk.mp3"
    = Some (t, Return silences) /\
    map (fun s => (Qred (fst s), Qred (snd s))) silences = [(3 # 2, 9 # 4); (7, 17 # 2)] /\
    List.length silences = 2%nat.
Proof.
  eexists. eexists. split; [reflexivity|]. split; [reflexivity|].
  refine (proj2 (proj2 (silences_pair_markers_in_order Decimal.float
           (Machine.subprocess_run 0 "20" 0 Machine.three_starts_two_ends 0) "talk.mp3"
           _ _ eq_refl)) _ _); reflexivity.
Defined.

(** C5 fails on a report whose first start marker is negative, as the
    detector prints it for a file that starts in silence: the pattern
    takes no sign, so that marker is passed over, the second start is
    paired with the first end, and the second end is dropped.  Of two
    starts and two ends one interval is left, from 7 to 2.5. *)
Theorem negative_start_marker_shifts_pairing :
  exists t silences,
    find_silences Decimal.float
      (Machine.subprocess_run 0 "20" 0 Machine.negative_first_start 0) "talk.mp3"
    = Some (t, Return silences) /\
    Str.findall "silence_start: " Machine.negative_first_start = ["7"%string] /\
    Str.findall "silence_end: " Machine.negative_first_start = ["2.5"; "9"]%string /\
    map (fun s => (Qred (fst s), Qred (snd s))) silences = [(7, 5 # 2)].
Proof.
  eexists. eexists. repeat split; reflexivity.
Qed.

Ltac trace_facts :=
  repeat split; try reflexivity;
  simpl; intros c Hc;
  repeat (destruct Hc as [<- | Hc]; [auto|]); destruct Hc.

(** C6. When the detector's report yields no silence interval, the
    pipeline exits with status 1 without creating a clip, running an
    extraction or writing a manifest: only the probe and the detector may
    have run. *)
Theorem no_silence_aborts_before_planning :
  forall (float : string -> option Q) (subprocess_run : command -> CompletedProcess)
         (argv : list string),
    let input_file := nth 1 argv EmptyString in
    let output := stderr (subprocess_run (silencedetect_command input_file)) in
    combine (Str.findall "silence_start: " output) (Str.findall "silence_end: " output) = [] ->
    exists t o,
      main float subprocess_run argv = Some (t, o) /\
      exit_status o = 1%Z /\
      plans_of t = [] /\
      dumps_of t = [] /\
      (forall c, In c (runs_of t) ->
         c = ffprobe_command input_file \/ c = silencedetect_command input_file).
Proof.
  intros float run argv input output Hnone. unfold main.
  destruct (negb _).
  { eexists. eexists. split; [reflexivity|]. trace_facts. }
  destruct (float (nth 2 argv EmptyString)) as [target_minutes|].
  2: { eexists. eexists. split; [reflexivity|]. trace_facts. }
  fold input. rewrite get_total_duration_eq. cbv zeta.
  destruct (negb _).
  { eexists. eexists. split; [reflexivity|]. trace_facts. }
  destruct (float (Str.strip _)) as [total|].
  2: { eexists. eexists. split; [reflexivity|]. trace_facts. }
  unfold bind at 1. rewrite find_silences_eq. cbv zeta. fold output.
  destruct (reports_error _).
  { eexists. eexists. split; [reflexivity|]. trace_facts. }
  rewrite Hnone.
  eexists. eexists. split; [reflexivity|]. trace_facts.
Qed.

(** The detector never reports the end of a silence. *)
Lemma no_silence_aborts_before_planning_witness :
  exists t o,
    main Decimal.float
      (Machine.subprocess_run 0 "20" 0 "[silencedetect @ 0x1] silence_start: 19.5" 0)
      (Machine.argv "talk.mp3" "5" "out") = Some (t, o) /\
    exit_status o = 1%Z /\
    plans_of t = [] /\
    dumps_of t = [] /\
    (forall c, In c (runs_of t) ->
       c = ffprobe_command "talk.mp3" \/ c = silencedetect_command "talk.mp3").
Proof.
  apply (no_silence_aborts_before_planning Decimal.float
           (Machine.subprocess_run 0 "20" 0 "[silencedetect @ 0x1] silence_start: 19.5" 0)
           (Machine.argv "talk.mp3" "5" "out")).
  reflexivity.
Defined.

(** C7 (as amended). [run_command], which runs the silence detector,
    gives up (exit status 1) exactly when the process returns a non-zero
    status and its standard error contains [Error] or [failed]; otherwise
    it returns the standard error.  The duration probe and every stream
    copy are run with [check=True]: any non-zero status ends the call
    with an uncaught [CalledProcessError], whatever the process wrote. *)
Theorem external_failure_policy :
  forall (float : string -> option Q) (subprocess_run : command -> CompletedProcess),
    (forall c,
       let result := subprocess_run c in
       ((exists t, run_command subprocess_run c = Some (t, SysExit 1%Z)) <->
        (returncode result <> 0%Z /\
         (Str.contains "Error" (stderr result) = true
          \/ Str.contains "failed" (stderr result) = true))) /\
       ((exists t, run_command subprocess_run c = Some (t, Return (stderr result))) <->
        ~ (returncode result <> 0%Z /\
           (Str.contains "Error" (stderr result) = true
            \/ Str.contains "failed" (stderr result) = true)))) /\
    (forall input_file,
       returncode (subprocess_run (ffprobe_command input_file)) <> 0%Z ->
       get_total_duration float subprocess_run input_file
       = Some ([Print GettingDuration; Run (ffprobe_command input_file)],
               Raise CalledProcessError)) /\
    (forall input_file target_duration_sec output_dir silences total_duration
            fuel current_pos clip_num clip_manifest,
       let split_point :=
         split_point_at target_duration_sec silences total_duration current_pos in
       let c := mkClip clip_num current_pos split_point in
       current_pos < total_duration ->
       1 <= split_point - current_pos ->
       returncode (subprocess_run
         (copy_command input_file current_pos split_point
            (output_filepath_of input_file output_dir c))) <> 0%Z ->
       split_loop subprocess_run input_file target_duration_sec output_dir silences
         total_duration (S fuel) current_pos clip_num clip_manifest
       = Some (clip_events input_file output_dir c, Raise CalledProcessError)).
Proof.
  intros float run. split; [|split].
  - intros c result. subst result. rewrite run_command_eq.
    assert (Hrep : reports_error (run c) = true <->
                   returncode (run c) <> 0%Z /\
                   (Str.contains "Error" (stderr (run c)) = true
                    \/ Str.contains "failed" (stderr (run c)) = true)).
    { unfold reports_error.
      rewrite andb_true_iff, orb_true_iff, negb_true_iff, Z.eqb_neq. reflexivity. }
    destruct (reports_error (run c)); split; split.
    + intros _. now apply Hrep.
    + intros _. eexists. reflexivity.
    + intros [t Ht]. discriminate.
    + intros Hno. exfalso. apply Hno. now apply Hrep.
    + intros [t Ht]. discriminate.
    + intros Hyes. apply Hrep in Hyes. discriminate.
    + intros _ Hyes. apply Hrep in Hyes. discriminate.
    + intros _. eexists. reflexivity.
  - intros input Hrc. rewrite get_total_duration_eq. cbv zeta.
    apply Z.eqb_neq in Hrc. now rewrite Hrc.
  - intros input target out silences total fuel cur n m sp c Hcond Hlen Hrc. subst sp c.
    rewrite split_loop_step.
    apply ltb_lt in Hcond. apply ltb_ge in Hlen. rewrite Hcond, Hlen. cbv zeta.
    apply Z.eqb_neq in Hrc. now rewrite Hrc.
Qed.

(** A detector that exits with status 1 without the words [Error] or
    [failed] is not fatal; a probe or a copy that does so is. *)
Lemma external_failure_policy_witness :
  (exists t,
     run_command (Machine.subprocess_run 1 EmptyString 1 Machine.one_silence 1)
       (silencedetect_command "talk.mp3") = Some (t, Return Machine.one_silence)) /\
  get_total_duration Decimal.float (Machine.subprocess_run 1 EmptyString 1 Machine.one_silence 1)
    "talk.mp3"
  = Some ([Print GettingDuration; Run (ffprobe_command "talk.mp3")], Raise CalledProcessError) /\
  split_loop (Machine.subprocess_run 1 EmptyString 1 Machine.one_silence 1) "talk.mp3" 6 "out"
    [(4, 6)] 10 1 0 1 []
  = Some (clip_events "talk.mp3" "out" (mkClip 1 0 (split_point_at 6 [(4, 6)] 10 0)),
          Raise CalledProcessError).
Proof.
  pose proof (external_failure_policy Decimal.float
                (Machine.subprocess_run 1 EmptyString 1 Machine.one_silence 1)) as (Hcmd & Hprobe & Hcopy).
  split; [|split].
  - apply (proj2 (proj2 (Hcmd (silencedetect_command "talk.mp3"%string)))).
    intros [_ [H | H]]; vm_compute in H; discriminate.
  - apply Hprobe. vm_compute. discriminate.
  - refine (Hcopy "talk.mp3"%string 6 "out"%string [(4, 6)] 10 0%nat 0 1%nat [] _ _ _);
      [reflexivity | vm_compute; discriminate | vm_compute; discriminate].
Defined.

(** C7 (as stated) fails for the stream copy: it exits with status 1 and
    writes nothing, no error text at all, and the pipeline ends with an
    uncaught [CalledProcessError], status 1, before any manifest is
    written. *)
Lemma silent_copy_failure_aborts :
  let subprocess_run := Machine.subprocess_run 0 "10" 0 Machine.one_silence 1 in
  exists t failed,
    main Decimal.float subprocess_run (Machine.argv "talk.mp3" "0.1" "out")
      = Some (t, Raise CalledProcessError) /\
    exit_status (Raise CalledProcessError : outcome unit) = 1%Z /\
    dumps_of t = [] /\
    last (runs_of t) [] = failed /\
    ss_of_command failed = [0] /\
    returncode (subprocess_run failed) = 1%Z /\
    Str.contains "Error" (stderr (subprocess_run failed)) = false /\
    Str.contains "failed" (stderr (subprocess_run failed)) = false.
Proof.
  eexists. eexists. split; [reflexivity|]. repeat split; reflexivity.
Qed.

(** When the file is shorter than a second and no silence has its
    midpoint past its end, the first split point is less than a second
    from 0. *)
Lemma first_split_short (target_duration_sec : Q) (silences : list (Q * Q))
    (total_duration : Q) :
  total_duration < 1 ->
  (forall s, In s silences -> midpoint s <= total_duration) ->
  split_point_at target_duration_sec silences total_duration 0 - 0 < 1.
Proof.
  intros Hshort Hmid.
  pose proof (split_point_bounded target_duration_sec silences total_duration 0 Hmid). lra.
Qed.



(** * Further properties of [split_audio] *)

Lemma planned_sequence (target_duration_sec : Q) (silences : list (Q * Q))
    (total_duration : Q) (plans : list ClipPlan) :
  forall current_pos clip_num,
    planned_from target_duration_sec silences total_duration current_pos clip_num plans ->
    map sequence_number plans = seq clip_num (List.length plans).
Proof.
  induction plans as [|c rest IH]; intros cur n Hp; [reflexivity|].
  simpl in Hp. destruct Hp as (Hn & _ & _ & _ & _ & Hrest).
  simpl. now rewrite Hn, (IH _ _ Hrest).
Qed.

Lemma manifest_filenames_of_infos (input_file : string) (plans : list ClipPlan) :
  flat_map entry_filenames (map clip_info_json (map (info_of input_file) plans))
  = map (output_filename_of input_file) (map sequence_number plans).
Proof.
  induction plans as [|c rest IH]; [reflexivity|].
  simpl. now rewrite IH.
Qed.

Lemma written_files_clip_events (input_file output_dir : string) (plans : list ClipPlan) :
  written_files (flat_map (clip_events input_file output_dir) plans)
  = map (output_filepath_of input_file output_dir) plans.
Proof.
  unfold written_files. rewrite runs_of_clip_events.
  induction plans as [|c rest IH]; [reflexivity|].
  simpl. now rewrite IH.
Qed.

(** X1. In a completed run the manifest has one entry per extraction, in
    the order of the extractions; the entries are named
    [<basename>_clip_NNN<ext>] with [NNN] counting from 1, and the i-th
    extraction writes the file the i-th entry names, in [output_dir]. *)
Theorem manifest_lists_every_clip :
  forall (subprocess_run : command -> CompletedProcess) (input_file : string)
         (target_duration_sec : Q) (output_dir : string) (silences : list (Q * Q))
         (total_duration : Q) (t : list event),
    split_audio subprocess_run input_file target_duration_sec output_dir silences
      total_duration = Some (t, Return tt) ->
    let n := List.length (runs_of t) in
    manifest_filenames t = map (output_filename_of input_file) (seq 1 n) /\
    written_files t = map (OsPath.join output_dir) (manifest_filenames t) /\
    List.length (manifest_times t) = n /\
    map fst (dumps_of t) = [manifest_filepath input_file output_dir].
Proof.
  intros run input target out silences total t Hrun n.
  destruct (completed_run_times _ _ _ _ _ _ _ Hrun) as [_ Htimes].
  apply split_audio_fuel_spec in Hrun. destruct Hrun as [Hplanned (Ht & _)].
  pose proof (planned_sequence _ _ _ _ _ _ Hplanned) as Hseq.
  set (plans := plans_of t) in *.
  assert (Hn : n = List.length plans).
  { subst n. rewrite Ht, runs_of_app, runs_of_clip_events. simpl.
    now rewrite app_nil_r, length_map. }
  assert (Hnames : manifest_filenames t
                   = map (output_filename_of input) (map sequence_number plans)).
  { unfold manifest_filenames. rewrite Ht, dumps_of_app, dumps_of_clip_events. simpl.
    rewrite app_nil_r. apply manifest_filenames_of_infos. }
  repeat split.
  - now rewrite Hnames, Hseq, Hn.
  - rewrite Hnames. unfold written_files. rewrite Ht, runs_of_app. simpl. rewrite app_nil_r.
    fold (written_files (flat_map (clip_events input out) plans)).
    rewrite written_files_clip_events, !map_map. reflexivity.
  - rewrite Htimes, length_map. now symmetry.
  - rewrite Ht, dumps_of_app, dumps_of_clip_events. reflexivity.
Qed.

Lemma manifest_lists_every_clip_witness :
  exists t,
    split_audio Machine.quiet "/data/talk.final.mp3" 300 "out" [(298, 302)] 600
      = Some (t, Return tt) /\
    manifest_filenames t = ["talk.final_clip_001.mp3"; "talk.final_clip_002.mp3"]%string /\
    written_files t = ["out/talk.final_clip_001.mp3"; "out/talk.final_clip_002.mp3"]%string.
Proof.
  eexists. split; [reflexivity|].
  pose proof (manifest_lists_every_clip Machine.quiet "/data/talk.final.mp3" 300 "out"
                [(298, 302)] 600 _ eq_refl) as (Hnames & Hfiles & _).
  split; [exact Hnames | exact Hfiles].
Defined.

(** X2. [split_audio] ends in one of two ways.  It returns, and then
    every clip it created was extracted; or a stream copy failed, and then
    it ends with [CalledProcessError] at once: the failed copy is the last
    process run, the clips before it were extracted and stay, and no
    manifest is written. *)
Theorem failed_extraction_leaves_no_manifest :
  forall (subprocess_run : command -> CompletedProcess) (input_file : string)
         (target_duration_sec : Q) (output_dir : string) (silences : list (Q * Q))
         (total_duration : Q) (t : list event) (o : outcome unit),
    split_audio subprocess_run input_file target_duration_sec output_dir silences
      total_duration = Some (t, o) ->
    (o = Return tt /\
     Forall (extracted subprocess_run input_file output_dir) (plans_of t) /\
     List.length (dumps_of t) = 1%nat)
    \/
    (o = Raise CalledProcessError /\
     dumps_of t = [] /\
     exists before c,
       plans_of t = before ++ [c] /\
       Forall (extracted subprocess_run input_file output_dir) before /\
       ~ extracted subprocess_run input_file output_dir c /\
       written_files t = map (output_filepath_of input_file output_dir) (before ++ [c])).
Proof.
  intros run input target out silences total t o Hrun.
  apply split_audio_fuel_spec in Hrun. destruct Hrun as [_ Hend].
  destruct o as [[]|code|e].
  - left. destruct Hend as (Ht & Hall & _). repeat split; [exact Hall|].
    rewrite Ht, dumps_of_app, dumps_of_clip_events. reflexivity.
  - destruct Hend.
  - right. destruct Hend as (-> & Ht & before & c & Hplans & Hall & Hfail).
    split; [reflexivity|]. split.
    + rewrite Ht. apply dumps_of_clip_events.
    + exists before, c. repeat split; try assumption.
      rewrite Ht at 1. rewrite written_files_clip_events. now rewrite Hplans.
Qed.

Lemma failed_extraction_leaves_no_manifest_witness :
  exists t,
    split_audio (Machine.subprocess_run 0 EmptyString 0 EmptyString 1)
      "talk.mp3" 300 "out" [(298, 302)] 600 = Some (t, Raise CalledProcessError) /\
    dumps_of t = [] /\
    written_files t = ["out/talk_clip_001.mp3"%string].
Proof.
  eexists. split; [reflexivity|].
  destruct (failed_extraction_leaves_no_manifest
              (Machine.subprocess_run 0 EmptyString 0 EmptyString 1)
              "talk.mp3" 300 "out" [(298, 302)] 600 _ _ eq_refl)
    as [(Habs & _) | (_ & Hdumps & _)].
  - discriminate Habs.
  - split; [exact Hdumps | reflexivity].
Defined.

Section MorePlans.

Variable target_duration_sec : Q.
Variable silences : list (Q * Q).
Variable total_duration : Q.

Local Abbreviation split_point :=
  (split_point_at target_duration_sec silences total_duration).
Local Abbreviation planned := (planned_from target_duration_sec silences total_duration).

(** Nothing is planned from the end of the file on. *)
Lemma planned_at_end (plans : list ClipPlan) (current_pos : Q) (clip_num : nat) :
  total_duration <= current_pos -> planned current_pos clip_num plans -> plans = [].
Proof.
  destruct plans as [|c rest]; [reflexivity|].
  simpl. intros Hle (_ & _ & _ & Hlt & _). lra.
Qed.





End MorePlans.





(** X5. When the file is at least a second long and not longer than the
    target clip duration, exactly one clip is created, and it is the whole
    file: clip 1 from 0 to [total_duration], whatever silences were
    detected. *)
Theorem short_file_is_one_clip :
  forall (subprocess_run : command -> CompletedProcess) (input_file : string)
         (target_duration_sec : Q) (output_dir : string) (silences : list (Q * Q))
         (total_duration : Q) (t : list event) (o : outcome unit),
    1 <= total_duration ->
    total_duration <= target_duration_sec ->
    split_audio subprocess_run input_file target_duration_sec output_dir silences
      total_duration = Some (t, o) ->
    plans_of t = [mkClip 1 0 total_duration].
Proof.
  intros run input target out silences total t o Hlong Htarget Hrun.
  assert (Hsplit : split_point_at target silences total 0 = total).
  { unfold split_point_at.
    replace (Py.geb (0 + target) total) with true; [reflexivity|].
    symmetry. apply geb_ge. lra. }
  apply split_audio_fuel_spec in Hrun. destruct Hrun as [Hplanned Hend].
  destruct (plans_of t) as [|c rest].
  - exfalso. destruct o as [[]|code|e].
    + destruct Hend as (_ & _ & [Hex | [_ Hshort]]).
      * apply Hex. unfold final_pos. simpl. lra.
      * unfold final_pos in Hshort. simpl in Hshort. rewrite Hsplit in Hshort. lra.
    + exact Hend.
    + destruct Hend as (_ & _ & before & c & Hnil & _). now destruct before.
  - simpl in Hplanned. destruct Hplanned as (Hn & Hs & He & _ & _ & Hrest).
    rewrite Hsplit in He.
    assert (Hnil : rest = []).
    { apply (planned_at_end target silences total rest (source_end c) 2); [|exact Hrest].
      rewrite He. apply Qle_refl. }
    destruct c as [n a b]. simpl in *. now subst.
Qed.

Lemma short_file_is_one_clip_witness :
  exists t,
    split_audio Machine.quiet "talk.mp3" 300 "out" [(10, 12); (40, 41)] 90
      = Some (t, Return tt) /\
    plans_of t = [mkClip 1 0 90].
Proof.
  eexists. split; [reflexivity|].
  apply (short_file_is_one_clip Machine.quiet "talk.mp3" 300 "out" [(10, 12); (40, 41)] 90
           _ (Return tt)); [vm_compute; discriminate | vm_compute; discriminate | reflexivity].
Defined.

(** X6. When [total_duration] is zero or negative the loop is never
    entered: nothing is run, and the manifest is written as an empty
    array. *)
Theorem empty_file_writes_empty_manifest :
  forall (subprocess_run : command -> CompletedProcess) (input_file : string)
         (target_duration_sec : Q) (output_dir : string) (silences : list (Q * Q))
         (total_duration : Q),
    total_duration <= 0 ->
    split_audio subprocess_run input_file target_duration_sec output_dir silences
      total_duration
    = Some ([Print (WritingManifest (manifest_filepath input_file output_dir));
             Dump (manifest_filepath input_file output_dir) (JArray [])], Return tt).
Proof.
  intros run input target out silences total Hle.
  unfold split_audio. rewrite split_audio_fuel_eq.
  replace (List.length silences + 2)%nat with (S (S (List.length silences))) by lia.
  rewrite split_loop_step.
  replace (Py.ltb 0 total) with false; [reflexivity|].
  symmetry. now apply ltb_ge.
Qed.

Lemma empty_file_writes_empty_manifest_witness :
  split_audio Machine.quiet "talk.mp3" 300 "out" [(1, 2)] 0
  = Some ([Print (WritingManifest "out/talk_manifest.json");
           Dump "out/talk_manifest.json" (JArray [])], Return tt).
Proof.
  apply (empty_file_writes_empty_manifest Machine.quiet "talk.mp3" 300 "out" [(1, 2)] 0).
  vm_compute. discriminate.
Defined.



(** ** File names *)

Lemma clip_number_of_decimal (n : nat) :
  clip_number_of (NilZero.string_of_uint (Nat.to_uint n)) = Some n.
Proof.
  unfold clip_number_of.
  pose proof (DecimalNat.Unsigned.of_to n) as Hn.
  destruct (Nat.to_uint n) eqn:Hd;
    try (rewrite NilZero.usu by discriminate; simpl option_map; now rewrite Hn).
  simpl in *. now rewrite <- Hn.
Qed.

(** The clip number can be read back from [NNN], padded or not. *)
Lemma clip_number_of_format (n : nat) : clip_number_of (Str.format_03d n) = Some n.
Proof.
  unfold Str.format_03d.
  pose proof (clip_number_of_decimal n) as H.
  destruct (NilZero.string_of_uint (Nat.to_uint n)) as [|a s]; [discriminate|].
  unfold clip_number_of in *. simpl in H.
  destruct (length (String a s)) as [|[|[|k]]]; try exact H; simpl;
    destruct (uint_of_char a (NilEmpty.uint_of_string s)) as [d|]; try discriminate;
    simpl in *; exact H.
Qed.

Lemma string_length_append (a b : string) :
  String.length (a ++ b) = (String.length a + String.length b)%nat.
Proof. induction a as [|c a IH]; simpl; [reflexivity | now rewrite IH]. Qed.

Lemma append_cancel_l (p a b : string) : (p ++ a = p ++ b)%string -> a = b.
Proof. induction p as [|c p IH]; simpl; [trivial | intros [= H]; auto]. Qed.

Lemma append_cancel_r (e a : string) : forall b, (a ++ e = b ++ e)%string -> a = b.
Proof.
  induction a as [|c a IH]; intros [|c' b] H; simpl in H.
  - reflexivity.
  - exfalso. apply (f_equal String.length) in H. simpl in H.
    rewrite string_length_append in H. lia.
  - exfalso. apply (f_equal String.length) in H. simpl in H.
    rewrite string_length_append in H. lia.
  - injection H as -> H. now rewrite (IH b H).
Qed.

Lemma output_filename_inj (input_file : string) (n m : nat) :
  output_filename_of input_file n = output_filename_of input_file m -> n = m.
Proof.
  unfold output_filename_of. intros H.
  apply append_cancel_l, append_cancel_l, append_cancel_r in H.
  apply (f_equal clip_number_of) in H. rewrite !clip_number_of_format in H.
  now injection H.
Qed.

Lemma prefix_empty (s : string) : prefix EmptyString s = true.
Proof. now destruct s. Qed.

Lemma output_filename_root (input_file : string) (n m : nat) :
  prefix "/" (output_filename_of input_file n) = prefix "/" (output_filename_of input_file m).
Proof.
  unfold output_filename_of. destruct (file_basename input_file) as [|a s]; [reflexivity|].
  cbn -[ascii_dec]. destruct (ascii_dec "/" a); [|reflexivity].
  now rewrite !prefix_empty.
Qed.

Lemma join_inj (output_dir a b : string) :
  prefix "/" a = prefix "/" b -> OsPath.join output_dir a = OsPath.join output_dir b -> a = b.
Proof.
  unfold OsPath.join. intros <-.
  destruct (prefix "/" a); [trivial|].
  destruct (_ || _); intros H.
  - exact (append_cancel_l _ _ _ H).
  - apply append_cancel_l in H. exact (append_cancel_l _ _ _ H).
Qed.

Lemma split_audio_written (subprocess_run : command -> CompletedProcess) (input_file : string)
    (target_duration_sec : Q) (output_dir : string) (silences : list (Q * Q))
    (total_duration : Q) (t : list event) (o : outcome unit) :
  split_audio subprocess_run input_file target_duration_sec output_dir silences
    total_duration = Some (t, o) ->
  written_files t = map (output_filepath_of input_file output_dir) (plans_of t) /\
  map sequence_number (plans_of t) = seq 1 (List.length (plans_of t)).
Proof.
  intros Hrun. apply split_audio_fuel_spec in Hrun. destruct Hrun as [Hplanned Hend].
  split; [|exact (planned_sequence _ _ _ _ _ _ Hplanned)].
  destruct o as [[]|code|e].
  - destruct Hend as (Ht & _). rewrite Ht at 1.
    unfold written_files. rewrite runs_of_app. simpl. rewrite app_nil_r.
    apply written_files_clip_events.
  - destruct Hend.
  - destruct Hend as (_ & Ht & _). rewrite Ht at 1. apply written_files_clip_events.
Qed.

(** X11. No two extractions of a run write the same file: the names
    [<basename>_clip_NNN<ext>] of distinct clip numbers differ, also past
    clip 999 where [NNN] grows to four digits. *)
Theorem clips_never_overwrite_each_other :
  forall (subprocess_run : command -> CompletedProcess) (input_file : string)
         (target_duration_sec : Q) (output_dir : string) (silences : list (Q * Q))
         (total_duration : Q) (t : list event) (o : outcome unit),
    split_audio subprocess_run input_file target_duration_sec output_dir silences
      total_duration = Some (t, o) ->
    NoDup (written_files t).
Proof.
  intros run input target out silences total t o Hrun.
  destruct (split_audio_written _ _ _ _ _ _ _ _ Hrun) as [Hfiles Hseq].
  rewrite Hfiles.
  replace (map (output_filepath_of input out) (plans_of t))
    with (map (fun n => OsPath.join out (output_filename_of input n))
              (map sequence_number (plans_of t)))
    by (rewrite map_map; reflexivity).
  rewrite Hseq. apply NoDup_map_NoDup_ForallPairs; [|apply seq_NoDup].
  intros n m _ _ H. apply (output_filename_inj input).
  exact (join_inj out _ _ (output_filename_root input n m) H).
Qed.

Lemma clips_never_overwrite_each_other_witness :
  exists t,
    split_audio Machine.quiet "talk.mp3" 300 "out" [(298, 302)] 600 = Some (t, Return tt) /\
    NoDup (written_files t).
Proof.
  eexists. split; [reflexivity|].
  apply (clips_never_overwrite_each_other Machine.quiet "talk.mp3" 300 "out" [(298, 302)] 600
           _ (Return tt)).
  reflexivity.
Defined.

Example names_past_999 :
  (output_filename_of "a.b/talk.mp3" 999, output_filename_of "a.b/talk.mp3" 1000)
  = ("talk_clip_999.mp3", "talk_clip_1000.mp3")%string.
Proof. reflexivity. Qed.

(** * Further properties of the pipeline *)

(** X7. [main] always ends, with status 0 or 1.  Status 0 means: there
    were three arguments after the script name, the probe succeeded, the
    processes run were the probe, the detector and one stream copy per
    clip, in this order, every copy succeeded, and the manifest was
    written, once. *)
Theorem status_zero_means_all_done :
  forall (float : string -> option Q) (subprocess_run : command -> CompletedProcess)
         (argv : list string),
    let input_file := nth 1 argv EmptyString in
    let output_dir := nth 3 argv EmptyString in
    exists t o,
      main float subprocess_run argv = Some (t, o) /\
      (exit_status o = 0%Z \/ exit_status o = 1%Z) /\
      (exit_status o = 0%Z ->
       List.length argv = 4%nat /\
       returncode (subprocess_run (ffprobe_command input_file)) = 0%Z /\
       runs_of t
       = ffprobe_command input_file :: silencedetect_command input_file
         :: map (fun c => copy_command input_file (source_start c) (source_end c)
                            (output_filepath_of input_file output_dir c)) (plans_of t) /\
       Forall (extracted subprocess_run input_file output_dir) (plans_of t) /\
       map fst (dumps_of t) = [manifest_filepath input_file output_dir]).
Proof.
  intros float run argv input out. unfold main.
  destruct (negb _) eqn:Hargc.
  { eexists. eexists. split; [reflexivity|]. split; [now right | discriminate]. }
  apply negb_false_iff, Nat.eqb_eq in Hargc.
  destruct (float (nth 2 argv EmptyString)) as [target_minutes|].
  2: { eexists. eexists. split; [reflexivity|]. split; [now right | discriminate]. }
  fold input out. rewrite get_total_duration_eq. cbv zeta.
  destruct (negb _) eqn:Hprobe.
  { eexists. eexists. split; [reflexivity|]. split; [now right | discriminate]. }
  apply negb_false_iff, Z.eqb_eq in Hprobe.
  destruct (float (Str.strip _)) as [total|].
  2: { eexists. eexists. split; [reflexivity|]. split; [now right | discriminate]. }
  unfold bind at 1. rewrite find_silences_eq. cbv zeta.
  destruct (reports_error _).
  { eexists. eexists. split; [reflexivity|]. split; [now right | discriminate]. }
  destruct (combine _ _) as [|p pairs].
  { eexists. eexists. split; [reflexivity|]. split; [now right | discriminate]. }
  destruct (floats_of float (p :: pairs)) as [silences|].
  2: { eexists. eexists. split; [reflexivity|]. split; [now right | discriminate]. }
  unfold bind at 1.
  destruct (split_audio run input (target_minutes * 60) out silences total)
    as [[t3 o3]|] eqn:Hsplit.
  2: { exfalso. revert Hsplit. apply split_audio_fuel_total. lia. }
  eexists. eexists. split; [reflexivity|].
  apply split_audio_fuel_spec in Hsplit. destruct Hsplit as [_ Hend].
  destruct o3 as [[]|code|e].
  - split; [now left|]. intros _. destruct Hend as (Ht & Hall & _).
    rewrite !runs_of_app, !plans_of_app, !dumps_of_app. simpl.
    repeat split; try assumption.
    + rewrite Ht at 1. rewrite runs_of_app, runs_of_clip_events. simpl.
      now rewrite app_nil_r.
    + rewrite Ht at 1. rewrite dumps_of_app, dumps_of_clip_events. reflexivity.
  - destruct Hend.
  - split; [now right | discriminate].
Qed.

Lemma status_zero_means_all_done_witness :
  exists t,
    main Decimal.float (Machine.subprocess_run 0 "10" 0 Machine.one_silence 0)
      (Machine.argv "talk.mp3" "0.1" "out") = Some (t, Return tt) /\
    written_files t = ["out/talk_clip_001.mp3"; "out/talk_clip_002.mp3"]%string /\
    map fst (dumps_of t) = ["out/talk_manifest.json"%string].
Proof.
  eexists. split; [reflexivity|].
  destruct (status_zero_means_all_done Decimal.float
              (Machine.subprocess_run 0 "10" 0 Machine.one_silence 0)
              (Machine.argv "talk.mp3" "0.1" "out")) as (t & o & Hmain & _ & Hzero).
  vm_compute in Hmain. injection Hmain as <- <-.
  cbv zeta in Hzero. destruct (Hzero eq_refl) as (_ & _ & _ & _ & Hdump).
  split; [reflexivity | exact Hdump].
Defined.

(** X8. With three arguments and a target that is a number, a probe that
    exits with a non-zero status or prints something that is no number
    ends the pipeline with status 1: the detector is never started, no
    clip is created and no manifest written. *)
Theorem probe_failure_stops_pipeline :
  forall (float : string -> option Q) (subprocess_run : command -> CompletedProcess)
         (argv : list string) (target_minutes : Q),
    let input_file := nth 1 argv EmptyString in
    let probe := subprocess_run (ffprobe_command input_file) in
    List.length argv = 4%nat ->
    float (nth 2 argv EmptyString) = Some target_minutes ->
    returncode probe <> 0%Z \/ float (Str.strip (stdout probe)) = None ->
    exists t o,
      main float subprocess_run argv = Some (t, o) /\
      exit_status o = 1%Z /\
      runs_of t = [ffprobe_command input_file] /\
      plans_of t = [] /\
      dumps_of t = [].
Proof.
  intros float run argv target_minutes input probe Hargc Htarget Hfail.
  unfold main. rewrite Hargc, Htarget. simpl negb. cbv iota.
  fold input. rewrite get_total_duration_eq. cbv zeta. fold probe.
  destruct (negb (returncode probe =? 0)%Z) eqn:Hrc.
  - eexists. eexists. split; [reflexivity|]. repeat split.
  - destruct Hfail as [Hne | Hnone].
    + apply negb_false_iff, Z.eqb_eq in Hrc. contradiction.
    + rewrite Hnone. eexists. eexists. split; [reflexivity|]. repeat split.
Qed.

Lemma probe_failure_stops_pipeline_witness :
  exists t o,
    main Decimal.float (Machine.subprocess_run 0 "N/A" 0 Machine.one_silence 0)
      (Machine.argv "talk.mp3" "5" "out") = Some (t, o) /\
    exit_status o = 1%Z /\
    runs_of t = [ffprobe_command "talk.mp3"] /\
    plans_of t = [] /\
    dumps_of t = [].
Proof.
  apply (probe_failure_stops_pipeline Decimal.float
           (Machine.subprocess_run 0 "N/A" 0 Machine.one_silence 0)
           (Machine.argv "talk.mp3" "5" "out") 5); [reflexivity | reflexivity |].
  right. reflexivity.
Defined.

Lemma round_4_decimals (x : Q) :
  inject_Z (Qfloor (Py.round x 4 * 10000)) == Py.round x 4 * 10000.
Proof.
  unfold Py.round. change (inject_Z (10 ^ Z.of_nat 4)) with 10000.
  set (r := Py.round_half_even (x * 10000)).
  assert (Hr : inject_Z r / 10000 * 10000 == inject_Z r) by field.
  rewrite (Qfloor_comp _ _ Hr), Qfloor_Z. symmetry. exact Hr.
Qed.

(** X13. In a completed run every [source_start_time] of the manifest
    has at most four decimals, and rounding it to four decimals again
    leaves it as it is. *)
Theorem manifest_times_have_four_decimals :
  forall (subprocess_run : command -> CompletedProcess) (input_file : string)
         (target_duration_sec : Q) (output_dir : string) (silences : list (Q * Q))
         (total_duration : Q) (t : list event),
    split_audio subprocess_run input_file target_duration_sec output_dir silences
      total_duration = Some (t, Return tt) ->
    Forall (fun x => inject_Z (Qfloor (x * 10000)) == x * 10000 /\ Py.round x 4 == x)
           (manifest_times t).
Proof.
  intros run input target out silences total t Hrun.
  destruct (completed_run_times _ _ _ _ _ _ _ Hrun) as [_ ->].
  apply Forall_forall. intros x Hx. apply in_map_iff in Hx. destruct Hx as (c & <- & _).
  pose proof (round_4_decimals (source_start c)) as H.
  split; [exact H | now apply round_4_exact].
Qed.

Lemma manifest_times_have_four_decimals_witness :
  exists t,
    split_audio Machine.quiet "talk.mp3" 2 "out" [(2, 8193 # 4096)] 10 = Some (t, Return tt) /\
    Forall (fun x => inject_Z (Qfloor (x * 10000)) == x * 10000 /\ Py.round x 4 == x)
           (manifest_times t).
Proof.
  eexists. split; [reflexivity|].
  apply (manifest_times_have_four_decimals Machine.quiet "talk.mp3" 2 "out"
           [(2, 8193 # 4096)] 10).
  reflexivity.
Defined.
